(** * export_elevenlabs_voices.py: a shallow embedding and its properties

    The script fetches the voice catalogue of a text-to-speech provider
    over HTTP, dumps the parsed response to [voices.json] and flattens
    the records under ["voices"] into [voices.csv].

    Python values are embedded as follows.
    - [str] is a sequence of Unicode code points ([pystr], a list of [N]);
      lone surrogates are code points like any other, as in Python.
    - the values [json.loads] builds are the inductive [json]; a [dict]
      is an association list in insertion order.
    - exceptions are the constructors of [exception]; a computation that
      may raise returns a [result].
    - the process state (standard output, the files, the requests sent)
      is threaded through the state-and-exception monad [M].

    The library calls of the script are embedded from CPython's [json],
    [csv] and [urllib] modules.  Where the embedding does not follow
    Python it stops with [NotModelled] instead of guessing: on a float
    literal (and on [NaN] and [Infinity]) in the decoder, and on the
    [str()] of a list or a dict in a CSV field.  The operating system
    never refuses to open or write a file, the interpreter's recursion
    limit is never reached, and the network answers a request with the
    final response, redirections included. *)

From Stdlib Require Import ZArith NArith List String Ascii Decimal DecimalZ DecimalPos DecimalFacts Lia Bool.
From stdpp Require Import base option gmap list.

Import ListNotations.
Local Open Scope Z_scope.

Set Default Proof Using "Type".

(** ** Strings *)

Definition pystr := list N.

(** A string literal of the source, as code points. *)
Definition py (s : string) : pystr := List.map N_of_ascii (list_ascii_of_string s).
Arguments py s%_string_scope : simpl never.

Definition pystr_eqb (a b : pystr) : bool := bool_decide (a = b).

(** Code points U+D800..U+DFFF: the strict UTF-8 codec refuses them. *)
Definition is_surrogate (c : N) : bool := ((55296 <=? c) && (c <=? 57343))%N.

(** [s.encode("utf-8")] succeeds. *)
Definition encodable (s : pystr) : bool := forallb (fun c => negb (is_surrogate c)) s.

(** [str.isspace] of one code point (CPython's [_PyUnicode_IsWhitespace]). *)
Definition is_space (c : N) : bool :=
  (((9 <=? c) && (c <=? 13)) || ((28 <=? c) && (c <=? 32)) || (c =? 133) || (c =? 160)
   || (c =? 5760) || ((8192 <=? c) && (c <=? 8202)) || (c =? 8232) || (c =? 8233)
   || (c =? 8239) || (c =? 8287) || (c =? 12288))%N.

Fixpoint lstrip (s : pystr) : pystr :=
  match s with
  | c :: r => if is_space c then lstrip r else s
  | [] => []
  end.

Definition rstrip (s : pystr) : pystr := rev (lstrip (rev s)).

(** [s.strip()] *)
Definition strip (s : pystr) : pystr := rstrip (lstrip s).

(** [sep.join(parts)] *)
Fixpoint join (sep : pystr) (parts : list pystr) : pystr :=
  match parts with
  | [] => []
  | [p] => p
  | p :: ps => p ++ sep ++ join sep ps
  end.

(** ** Integers as text *)

Fixpoint uint_digits (d : Decimal.uint) : pystr :=
  match d with
  | Nil => []
  | D0 d => 48%N :: uint_digits d
  | D1 d => 49%N :: uint_digits d
  | D2 d => 50%N :: uint_digits d
  | D3 d => 51%N :: uint_digits d
  | D4 d => 52%N :: uint_digits d
  | D5 d => 53%N :: uint_digits d
  | D6 d => 54%N :: uint_digits d
  | D7 d => 55%N :: uint_digits d
  | D8 d => 56%N :: uint_digits d
  | D9 d => 57%N :: uint_digits d
  end.

(** [int.__repr__]: decimal digits, a leading [-] when negative. *)
Definition int_repr (z : Z) : pystr :=
  match Z.to_int z with
  | Decimal.Pos d => uint_digits d
  | Decimal.Neg d => 45%N :: uint_digits d
  end.

(** ** JSON values *)

Unset Elimination Schemes.
Inductive json : Type :=
  | JNull
  | JBool (b : bool)
  | JInt (z : Z)
  | JStr (s : pystr)
  | JArr (items : list json)
  | JObj (pairs : list (pystr * json)).
Set Elimination Schemes.

Section JsonInd.
Variable P : json -> Prop.
Hypothesis Hnull : P JNull.
Hypothesis Hbool : forall b, P (JBool b).
Hypothesis Hint : forall z, P (JInt z).
Hypothesis Hstr : forall s, P (JStr s).
Hypothesis Harr : forall l, Forall P l -> P (JArr l).
Hypothesis Hobj : forall l, Forall (fun kv => P (snd kv)) l -> P (JObj l).

Fixpoint json_ind (v : json) : P v :=
  match v with
  | JNull => Hnull
  | JBool b => Hbool b
  | JInt z => Hint z
  | JStr s => Hstr s
  | JArr l =>
      Harr l ((fix go (l : list json) : Forall P l :=
                 match l with
                 | [] => @List.Forall_nil _ _
                 | x :: r => @List.Forall_cons _ _ x r (json_ind x) (go r)
                 end) l)
  | JObj l =>
      Hobj l ((fix go (l : list (pystr * json)) : Forall (fun kv => P (snd kv)) l :=
                 match l with
                 | [] => @List.Forall_nil _ _
                 | kv :: r => @List.Forall_cons _ _ kv r (json_ind (snd kv)) (go r)
                 end) l)
  end.
End JsonInd.

(** *** dict operations on association lists *)

Fixpoint dict_lookup (k : pystr) (d : list (pystr * json)) : option json :=
  match d with
  | [] => None
  | (k', v) :: r => if pystr_eqb k k' then Some v else dict_lookup k r
  end.

(** [d[k] = v]: an existing key keeps its position, a new one goes last. *)
Fixpoint dict_set (k : pystr) (v : json) (d : list (pystr * json)) : list (pystr * json) :=
  match d with
  | [] => [(k, v)]
  | (k', v') :: r => if pystr_eqb k k' then (k', v) :: r else (k', v') :: dict_set k v r
  end.

(** [del d[k]] *)
Fixpoint dict_del (k : pystr) (d : list (pystr * json)) : list (pystr * json) :=
  match d with
  | [] => []
  | (k', v') :: r => if pystr_eqb k k' then dict_del k r else (k', v') :: dict_del k r
  end.

(** [dict(pairs)] *)
Definition dict_of_pairs (pairs : list (pystr * json)) : list (pystr * json) :=
  fold_left (fun d kv => dict_set (fst kv) (snd kv) d) pairs [].

(** The invariant of every dict: no key occurs twice, at any depth. *)
Fixpoint wf_json (v : json) : bool :=
  match v with
  | JArr l => forallb wf_json l
  | JObj l => bool_decide (NoDup (List.map fst l))
              && forallb (fun kv => wf_json (snd kv)) l
  | _ => true
  end.

(** ** Exceptions and results *)

Inductive exception : Type :=
  | AttributeError
  | TypeError
  | UnicodeEncodeError
  | BodyReadError          (* whatever [resp.read().decode("utf-8")] raises *)
  | JSONDecodeError
  | HTTPError (code : Z) (reason : pystr) (body : option pystr)
  | URLError (reason : pystr)
  | SystemExit (code : Z)
  | NotModelled.           (* Python goes on; the embedding does not follow *)

Inductive result (A : Type) : Type :=
  | Ret (a : A)
  | Raise (e : exception).
Arguments Ret {A} a.
Arguments Raise {A} e.

Definition rbind {A B} (r : result A) (k : A -> result B) : result B :=
  match r with
  | Ret a => k a
  | Raise e => Raise e
  end.

Declare Scope res_scope.
Delimit Scope res_scope with res.
Notation "x <- m ;; k" := (rbind m (fun x => k))
  (at level 100, m at next level, right associativity) : res_scope.

(** ** Python operators on JSON values *)

(** [bool(v)] *)
Definition truthy (v : json) : bool :=
  match v with
  | JNull => false
  | JBool b => b
  | JInt z => negb (z =? 0)
  | JStr s => match s with [] => false | _ => true end
  | JArr l => match l with [] => false | _ => true end
  | JObj l => match l with [] => false | _ => true end
  end.

(** [a or b] *)
Definition py_or (a b : json) : json := if truthy a then a else b.

(** [o.get(k, d)]: only a dict has the method. *)
Definition py_get (o : json) (k : pystr) (d : json) : result json :=
  match o with
  | JObj kvs => Ret (default d (dict_lookup k kvs))
  | _ => Raise AttributeError
  end.

(** [for v in o]: the items the loop visits. *)
Definition py_iter (o : json) : result (list json) :=
  match o with
  | JArr l => Ret l
  | JObj kvs => Ret (List.map (fun kv => JStr (fst kv)) kvs)
  | JStr s => Ret (List.map (fun c => JStr [c]) s)
  | _ => Raise TypeError
  end.

(** [len(o)] *)
Definition py_len (o : json) : result Z :=
  match o with
  | JArr l => Ret (Z.of_nat (length l))
  | JObj kvs => Ret (Z.of_nat (length kvs))
  | JStr s => Ret (Z.of_nat (length s))
  | _ => Raise TypeError
  end.

(** ** The JSON encoder ([json.dump], [json.dumps])

    The encoder of CPython's [json.encoder]: [ensure_ascii] selects the
    string escaper, the indent is two spaces per level, the item
    separator is [","] and the key separator [": "]. *)

Definition hex_digit (n : N) : N := (if n <? 10 then 48 + n else 87 + n)%N.

(** ['{0:04x}'.format(n)] for [n < 0x10000] *)
Definition hex4 (n : N) : pystr :=
  [hex_digit ((n / 4096) mod 16); hex_digit ((n / 256) mod 16);
   hex_digit ((n / 16) mod 16); hex_digit (n mod 16)]%N.

Definition u_escape (n : N) : pystr := 92%N :: 117%N :: hex4 n.

(** The replacement of one character: [ESCAPE_DCT], and for
    [ensure_ascii] the [\uXXXX] forms of everything outside [' '..'~']. *)
Definition escape_char (ensure_ascii : bool) (c : N) : pystr :=
  (if c =? 92 then py "\\"
   else if c =? 34 then 92 :: [34]
   else if c =? 8 then py "\b"
   else if c =? 12 then py "\f"
   else if c =? 10 then py "\n"
   else if c =? 13 then py "\r"
   else if c =? 9 then py "\t"
   else if c <? 32 then u_escape c
   else if ensure_ascii && (126 <? c) then
     if c <? 65536 then u_escape c
     else
       let n := c - 65536 in
       u_escape (N.lor 55296 (N.land (N.shiftr n 10) 1023))
         ++ u_escape (N.lor 56320 (N.land n 1023))
   else [c])%N.

(** [encode_basestring] / [encode_basestring_ascii] *)
Definition encode_basestring (ensure_ascii : bool) (s : pystr) : pystr :=
  34%N :: flat_map (escape_char ensure_ascii) s ++ [34%N].

(** ['\n' + _indent * level] with [_indent = '  '] *)
Definition newline_indent (level : nat) : pystr := 10%N :: repeat 32%N (2 * level).

(** The values the encoder yields in one chunk. *)
Definition scalar_text (ensure_ascii : bool) (v : json) : option pystr :=
  match v with
  | JStr s => Some (encode_basestring ensure_ascii s)
  | JNull => Some (py "null")
  | JBool true => Some (py "true")
  | JBool false => Some (py "false")
  | JInt z => Some (int_repr z)
  | JArr _ | JObj _ => None
  end.

(** The loop of [_iterencode_list]: [buf] is the opening bracket or the
    separator, yielded together with a scalar item. *)
Definition iterencode_list (ensure_ascii : bool) (enc : json -> list pystr)
    (separator : pystr) : pystr -> list json -> list pystr :=
  fix loop (buf : pystr) (lst : list json) : list pystr :=
    match lst with
    | [] => []
    | value :: rest =>
        match scalar_text ensure_ascii value with
        | Some t => [buf ++ t]
        | None => buf :: enc value
        end ++ loop separator rest
    end.

(** The loop of [_iterencode_dict]. *)
Definition iterencode_dict (ensure_ascii : bool) (enc : json -> list pystr)
    (item_separator : pystr) : bool -> list (pystr * json) -> list pystr :=
  fix loop (first : bool) (items : list (pystr * json)) : list pystr :=
    match items with
    | [] => []
    | (key, value) :: rest =>
        (if first then [] else [item_separator])
        ++ [encode_basestring ensure_ascii key; py ": "]
        ++ match scalar_text ensure_ascii value with
           | Some t => [t]
           | None => enc value
           end
        ++ loop false rest
    end.

(** [_iterencode(o, level)]: the chunks, in the order they are yielded. *)
Fixpoint iterencode (ensure_ascii : bool) (level : nat) (o : json) : list pystr :=
  match o with
  | JArr [] => [py "[]"]
  | JArr lst =>
      iterencode_list ensure_ascii (iterencode ensure_ascii (S level))
        (py "," ++ newline_indent (S level))
        (py "[" ++ newline_indent (S level)) lst
      ++ [newline_indent level; py "]"]
  | JObj [] => [py "{}"]
  | JObj dct =>
      [py "{"; newline_indent (S level)]
      ++ iterencode_dict ensure_ascii (iterencode ensure_ascii (S level))
           (py "," ++ newline_indent (S level)) true dct
      ++ [newline_indent level; py "}"]
  | _ => match scalar_text ensure_ascii o with Some t => [t] | None => [] end
  end.

(** [json.dumps(o, indent=2)] ([ensure_ascii] is then [True]), and the
    whole text [json.dump(o, f, ensure_ascii=False, indent=2)] writes. *)
Definition json_dumps (ensure_ascii : bool) (o : json) : pystr :=
  concat (iterencode ensure_ascii 0 o).

(** The same text, built value by value. *)
Fixpoint encode_text (ensure_ascii : bool) (level : nat) (o : json) : pystr :=
  match o with
  | JStr s => encode_basestring ensure_ascii s
  | JNull => py "null"
  | JBool true => py "true"
  | JBool false => py "false"
  | JInt z => int_repr z
  | JArr [] => py "[]"
  | JArr lst =>
      py "[" ++ newline_indent (S level)
      ++ join (py "," ++ newline_indent (S level))
           (List.map (encode_text ensure_ascii (S level)) lst)
      ++ newline_indent level ++ py "]"
  | JObj [] => py "{}"
  | JObj dct =>
      py "{" ++ newline_indent (S level)
      ++ join (py "," ++ newline_indent (S level))
           (List.map (fun kv => encode_basestring ensure_ascii (fst kv) ++ py ": "
                                ++ encode_text ensure_ascii (S level) (snd kv)) dct)
      ++ newline_indent level ++ py "}"
  end.

(** ** The JSON decoder ([json.loads])

    The scanner of CPython's [json.decoder] and [json.scanner], reading
    the remaining text instead of an index into it.  Every recursive call
    consumes at least one character, so a fuel of twice the length of the
    text is never exhausted. *)

(** [WHITESPACE = ' \t\n\r'] *)
Definition is_ws (c : N) : bool := ((c =? 32) || (c =? 9) || (c =? 10) || (c =? 13))%N.

Fixpoint skip_ws (s : pystr) : pystr :=
  match s with
  | c :: r => if is_ws c then skip_ws r else s
  | [] => []
  end.

Definition is_digit (c : N) : bool := ((48 <=? c) && (c <=? 57))%N.

(** The value of one hexadecimal digit, either case. *)
Definition hex_val (c : N) : option N :=
  (if (48 <=? c) && (c <=? 57) then Some (c - 48)
   else if (97 <=? c) && (c <=? 102) then Some (c - 87)
   else if (65 <=? c) && (c <=? 70) then Some (c - 55)
   else None)%N.

(** [_decode_uXXXX]: four hexadecimal digits and what follows them. *)
Definition decode_uXXXX (s : pystr) : option (N * pystr) :=
  match s with
  | a :: b :: c :: d :: r =>
      match hex_val a, hex_val b, hex_val c, hex_val d with
      | Some a, Some b, Some c, Some d => Some (a * 4096 + b * 256 + c * 16 + d, r)%N
      | _, _, _, _ => None
      end
  | _ => None
  end.

(** The [BACKSLASH] table. *)
Definition backslash (esc : N) : option N :=
  (if esc =? 34 then Some 34          (* quote *)
   else if esc =? 92 then Some 92     (* backslash *)
   else if esc =? 47 then Some 47     (* slash *)
   else if esc =? 98 then Some 8      (* b *)
   else if esc =? 102 then Some 12    (* f *)
   else if esc =? 110 then Some 10    (* n *)
   else if esc =? 114 then Some 13    (* r *)
   else if esc =? 116 then Some 9     (* t *)
   else None)%N.

(** [s.startswith(prefix)], giving what follows the prefix. *)
Fixpoint strip_prefix (prefix s : pystr) : option pystr :=
  match prefix, s with
  | [], _ => Some s
  | p :: ps, c :: r => if (p =? c)%N then strip_prefix ps r else None
  | _ :: _, [] => None
  end.

(** The loop of [scanstring], strict: [s] starts after the opening quote;
    the result is the decoded string and the text after the closing
    quote.  A high surrogate escape directly followed by a low surrogate
    escape is one character. *)
Fixpoint scanstring (fuel : nat) (s : pystr) : option (pystr * pystr) :=
  match fuel with
  | O => None
  | S fuel =>
      match s with
      | [] => None                                     (* unterminated *)
      | c :: r =>
          if (c =? 34)%N then Some ([], r)
          else if (c =? 92)%N then
            match r with
            | [] => None
            | esc :: r' =>
                if (esc =? 117)%N then
                  match decode_uXXXX r' with
                  | None => None
                  | Some (uni, r2) =>
                      let plain :=
                        match scanstring fuel r2 with
                        | Some (t, r3) => Some (uni :: t, r3)
                        | None => None
                        end in
                      if ((55296 <=? uni) && (uni <=? 56319))%N then
                        match strip_prefix (py "\u") r2 with
                        | Some r3 =>
                            match decode_uXXXX r3 with
                            | None => None
                            | Some (uni2, r4) =>
                                if ((56320 <=? uni2) && (uni2 <=? 57343))%N then
                                  match scanstring fuel r4 with
                                  | Some (t, r5) =>
                                      Some ((65536 + N.lor (N.shiftl (uni - 55296) 10)
                                                       (uni2 - 56320))%N :: t, r5)
                                  | None => None
                                  end
                                else plain
                            end
                        | None => plain
                        end
                      else plain
                  end
                else
                  match backslash esc with
                  | Some ch =>
                      match scanstring fuel r' with
                      | Some (t, r3) => Some (ch :: t, r3)
                      | None => None
                      end
                  | None => None
                  end
            end
          else if (c <? 32)%N then None                (* control character *)
          else
            match scanstring fuel r with
            | Some (t, r3) => Some (c :: t, r3)
            | None => None
            end
      end
  end.

Definition py_scanstring (s : pystr) : option (pystr * pystr) :=
  scanstring (S (length s)) s.

(** The digits at the front of [s], and the rest. *)
Fixpoint span_digits (s : pystr) : pystr * pystr :=
  match s with
  | c :: r => if is_digit c then let (d, r') := span_digits r in (c :: d, r') else ([], s)
  | [] => ([], [])
  end.

Fixpoint digits_uint (ds : pystr) : Decimal.uint :=
  match ds with
  | [] => Nil
  | c :: r =>
      let d := digits_uint r in
      (if c =? 48 then D0 d else if c =? 49 then D1 d else if c =? 50 then D2 d
       else if c =? 51 then D3 d else if c =? 52 then D4 d else if c =? 53 then D5 d
       else if c =? 54 then D6 d else if c =? 55 then D7 d else if c =? 56 then D8 d
       else D9 d)%N
  end.

(** [int(text)] for a text the number pattern matched. *)
Definition parse_int (negative : bool) (digits : pystr) : Z :=
  Z.of_int (if negative then Decimal.Neg (digits_uint digits)
            else Decimal.Pos (digits_uint digits)).

(** The text starts with a digit. *)
Definition starts_with_digit (s : pystr) : bool :=
  match s with
  | d :: _ => is_digit d
  | [] => false
  end.

(** A fraction (a dot and a digit) or an exponent (e or E, an optional
    sign, a digit) follows. *)
Definition float_tail (s : pystr) : bool :=
  match s with
  | c :: r =>
      if (c =? 46)%N then starts_with_digit r
      else if ((c =? 101) || (c =? 69))%N then
        match r with
        | sg :: r' =>
            if ((sg =? 43) || (sg =? 45))%N then starts_with_digit r' else is_digit sg
        | [] => false
        end
      else false
  | [] => false
  end.

Inductive number_match : Type :=
  | NoNumber
  | IntLit (z : Z) (rest : pystr)
  | FloatLit.

(** [NUMBER_RE] at the front of [s]: an optional minus sign, then a lone
    zero or a non-zero digit and more digits; a fraction or an exponent
    after them makes the literal a float. *)
Definition match_number (s : pystr) : number_match :=
  let (negative, s1) :=
    match s with
    | c :: r => if (c =? 45)%N then (true, r) else (false, s)
    | [] => (false, s)
    end in
  match s1 with
  | c :: r =>
      if (c =? 48)%N then
        if float_tail r then FloatLit else IntLit (parse_int negative [c]) r
      else if is_digit c then
        let (ds, r') := span_digits r in
        if float_tail r' then FloatLit else IntLit (parse_int negative (c :: ds)) r'
      else NoNumber
  | [] => NoNumber
  end.

(** [scan_once], with [JSONObject] and [JSONArray] after their first
    look-ahead. *)
Fixpoint scan_once (fuel : nat) (s : pystr) : result (json * pystr) :=
  match fuel with
  | O => Raise JSONDecodeError
  | S fuel =>
      match s with
      | [] => Raise JSONDecodeError
      | nextchar :: r =>
          if (nextchar =? 34)%N then
            match py_scanstring r with
            | Some (t, r') => Ret (JStr t, r')
            | None => Raise JSONDecodeError
            end
          else if (nextchar =? 123)%N then
            match skip_ws r with
            | c :: r' =>
                if (c =? 125)%N then Ret (JObj [], r')
                else if (c =? 34)%N then object_loop fuel [] r'
                else Raise JSONDecodeError
            | [] => Raise JSONDecodeError
            end
          else if (nextchar =? 91)%N then
            match skip_ws r with
            | c :: r' =>
                if (c =? 93)%N then Ret (JArr [], r')
                else array_loop fuel [] (c :: r')
            | [] => Raise JSONDecodeError
            end
          else
            match strip_prefix (py "null") s, strip_prefix (py "true") s,
                  strip_prefix (py "false") s with
            | Some r', _, _ => Ret (JNull, r')
            | _, Some r', _ => Ret (JBool true, r')
            | _, _, Some r' => Ret (JBool false, r')
            | None, None, None =>
                match match_number s with
                | IntLit z r' => Ret (JInt z, r')
                | FloatLit => Raise NotModelled
                | NoNumber =>
                    match strip_prefix (py "NaN") s, strip_prefix (py "Infinity") s,
                          strip_prefix (py "-Infinity") s with
                    | None, None, None => Raise JSONDecodeError
                    | _, _, _ => Raise NotModelled
                    end
                end
            end
      end
  end
with object_loop (fuel : nat) (pairs : list (pystr * json)) (s : pystr)
  : result (json * pystr) :=
  match fuel with
  | O => Raise JSONDecodeError
  | S fuel =>
      match py_scanstring s with
      | None => Raise JSONDecodeError
      | Some (key, s1) =>
          match skip_ws s1 with
          | colon :: s2 =>
              if (colon =? 58)%N then
                match scan_once fuel (skip_ws s2) with
                | Raise e => Raise e
                | Ret (value, s3) =>
                    let pairs := pairs ++ [(key, value)] in
                    match skip_ws s3 with
                    | c :: r =>
                        if (c =? 125)%N then Ret (JObj (dict_of_pairs pairs), r)
                        else if (c =? 44)%N then
                          match skip_ws r with
                          | q :: r' =>
                              if (q =? 34)%N then object_loop fuel pairs r'
                              else Raise JSONDecodeError
                          | [] => Raise JSONDecodeError
                          end
                        else Raise JSONDecodeError
                    | [] => Raise JSONDecodeError
                    end
                end
              else Raise JSONDecodeError
          | [] => Raise JSONDecodeError
          end
      end
  end
with array_loop (fuel : nat) (values : list json) (s : pystr)
  : result (json * pystr) :=
  match fuel with
  | O => Raise JSONDecodeError
  | S fuel =>
      match scan_once fuel s with
      | Raise e => Raise e
      | Ret (value, s1) =>
          let values := values ++ [value] in
          match skip_ws s1 with
          | c :: r =>
              if (c =? 93)%N then Ret (JArr values, r)
              else if (c =? 44)%N then array_loop fuel values (skip_ws r)
              else Raise JSONDecodeError
          | [] => Raise JSONDecodeError
          end
      end
  end.

(** [json.loads(s)]: one value between optional whitespace, nothing after. *)
Definition json_loads (s : pystr) : result json :=
  match scan_once (2 * length s + 2) (skip_ws s) with
  | Raise e => Raise e
  | Ret (obj, r) =>
      match skip_ws r with
      | [] => Ret obj
      | _ => Raise JSONDecodeError
      end
  end.

(** ** The process: standard output, files, network *)

Record request : Type := mkRequest {
  req_url : pystr;
  req_data : option pystr;
  req_headers : list (pystr * pystr)
}.

(** [urllib.request.Request(url)]: no data, no headers yet. *)
Definition Request (url : pystr) : request := mkRequest url None [].

(** [Request.get_method()] *)
Definition get_method (req : request) : pystr :=
  match req_data req with
  | None => py "GET"
  | Some _ => py "POST"
  end.

(** What the network answers to a request: a response with its status
    line and the outcome of [read().decode("utf-8")] on its body ([None]
    when that raises), or no response at all. *)
Inductive response : Type :=
  | HttpResponse (status : Z) (reason : pystr) (body : option pystr)
  | ConnectionFailure (reason : pystr).

Definition transport := request -> response.

Record state : Type := mkState {
  stdout : list pystr;            (* one entry per [print] call *)
  files : gmap pystr pystr;       (* file name to text content *)
  sent : list request             (* the requests handed to the network *)
}.

(** A statement: it returns or raises, and leaves a state. *)
Definition M (A : Type) : Type := state -> result A * state.

Definition ret {A} (a : A) : M A := fun st => (Ret a, st).

Definition bind {A B} (m : M A) (k : A -> M B) : M B :=
  fun st =>
    match m st with
    | (Ret a, st') => k a st'
    | (Raise e, st') => (Raise e, st')
    end.

Definition raise {A} (e : exception) : M A := fun st => (Raise e, st).

(** A pure computation as a statement. *)
Definition lift {A} (r : result A) : M A := fun st => (r, st).

(** [try: body except ...: handler]; the handler re-raises what its
    clauses do not match. *)
Definition try_except {A} (body : M A) (handler : exception -> M A) : M A :=
  fun st =>
    match body st with
    | (Ret a, st') => (Ret a, st')
    | (Raise e, st') => handler e st'
    end.

Declare Scope py_scope.
Delimit Scope py_scope with py.
Notation "x <- m ;; k" := (bind m (fun x => k))
  (at level 100, m at next level, right associativity) : py_scope.
Notation "m ;; k" := (bind m (fun _ => k))
  (at level 100, right associativity) : py_scope.
Local Open Scope py_scope.

(** [if cond: body] as a statement. *)
Definition when (cond : bool) (body : M unit) : M unit :=
  if cond then body else ret tt.

(** [for x in items: body x] *)
Fixpoint for_each {A} (items : list A) (body : A -> M unit) : M unit :=
  match items with
  | [] => ret tt
  | x :: rest => body x ;; for_each rest body
  end.

Definition print (line : pystr) : M unit :=
  fun st => (Ret tt, mkState (stdout st ++ [line]) (files st) (sent st)).

(** [sys.exit(code)] *)
Definition sys_exit {A} (code : Z) : M A := raise (SystemExit code).

(** [except Exception] matches everything but [SystemExit]; the
    embedding's own [NotModelled] is never caught. *)
Definition is_Exception (e : exception) : bool :=
  match e with
  | SystemExit _ | NotModelled => false
  | _ => true
  end.

(** The exit status of the interpreter; [None] where the embedding
    stopped following the program. *)
Definition exit_status (o : result unit) : option Z :=
  match o with
  | Ret _ => Some 0
  | Raise (SystemExit code) => Some code
  | Raise NotModelled => None
  | Raise _ => Some 1
  end.

(** *** Text files

    [open(name, "w", encoding="utf-8")] creates or truncates the file;
    [f.write(text)] encodes [text] at once and appends it, or raises
    without appending.  The [with] statement closes the file on every
    exit, so what was written before an exception stays in the file. *)

Definition open_w (name : pystr) : M pystr :=
  fun st => (Ret name, mkState (stdout st) (<[name := []]> (files st)) (sent st)).

Definition write (f : pystr) (text : pystr) : M unit :=
  fun st =>
    if encodable text then
      (Ret tt, mkState (stdout st)
                  (<[f := default [] (files st !! f) ++ text]> (files st)) (sent st))
    else (Raise UnicodeEncodeError, st).

(** *** The network *)

(** [urllib.request.urlopen(req)]: a status outside 2xx is raised as
    [HTTPError], no response as [URLError]. *)
Definition urlopen (net : transport) (req : request) : M (option pystr) :=
  fun st =>
    let st' := mkState (stdout st) (files st) (sent st ++ [req]) in
    match net req with
    | HttpResponse status reason body =>
        if (200 <=? status) && (status <? 300) then (Ret body, st')
        else (Raise (HTTPError status reason body), st')
    | ConnectionFailure reason => (Raise (URLError reason), st')
    end.

(** [body.read().decode("utf-8")] *)
Definition read_decode (body : option pystr) : M pystr :=
  match body with
  | Some text => ret text
  | None => raise BodyReadError
  end.

(** ** The CSV writer ([csv.DictWriter] with [QUOTE_ALL]) *)

(** The text of one field: [None] is empty, a [str] is itself, anything
    else goes through [str()]; the [str()] of a list or a dict is not
    modelled. *)
Definition csv_field_text (v : json) : result pystr :=
  match v with
  | JNull => Ret []
  | JStr s => Ret s
  | JBool true => Ret (py "True")
  | JBool false => Ret (py "False")
  | JInt z => Ret (int_repr z)
  | JArr _ | JObj _ => Raise NotModelled
  end.

(** A quoted field: the quote character doubled inside. *)
Definition csv_quote (s : pystr) : pystr :=
  34%N :: flat_map (fun c => if (c =? 34)%N then [34%N; 34%N] else [c]) s ++ [34%N].

(** One record: every field quoted, commas between, [\r\n] after. *)
Definition csv_line (fields : list pystr) : pystr :=
  join (py ",") (List.map csv_quote fields) ++ [13%N; 10%N].

Fixpoint map_result {A B} (f : A -> result B) (l : list A) : result (list B) :=
  match l with
  | [] => Ret []
  | x :: r =>
      match f x with
      | Raise e => Raise e
      | Ret y => match map_result f r with
                 | Raise e => Raise e
                 | Ret ys => Ret (y :: ys)
                 end
      end
  end.

(** [DictWriter._dict_to_list]: the values in field order, [restval]
    (the empty string) for a missing key. *)
Definition dict_to_list (fieldnames : list pystr) (row : list (pystr * json)) : list json :=
  List.map (fun key => default (JStr []) (dict_lookup key row)) fieldnames.

(** [writer.writerow(row)]: one [write] of the whole record. *)
Definition writerow (f : pystr) (fieldnames : list pystr) (row : list (pystr * json))
  : M unit :=
  fields <- lift (map_result csv_field_text (dict_to_list fieldnames row)) ;;
  write f (csv_line fields).

(** [writer.writeheader()] *)
Definition writeheader (f : pystr) (fieldnames : list pystr) : M unit :=
  writerow f fieldnames (List.map (fun k => (k, JStr k)) fieldnames).

(** ** The program *)

Definition API_URL : pystr := py "https://api.elevenlabs.io/v1/voices".

(** [req.add_header(key, val)] *)
Definition add_header (key val : pystr) (req : request) : request :=
  mkRequest (req_url req) (req_data req) (req_headers req ++ [(key, val)]).

Definition fetch_voices (net : transport) (api_key : pystr) : M json :=
  let req := Request API_URL in
  let req := add_header (py "xi-api-key") api_key req in
  try_except
    (resp <- urlopen net req ;;
     data <- read_decode resp ;;
     lift (json_loads data))
    (fun e =>
       match e with
       | HTTPError code reason body =>
           print (py "HTTP error: " ++ int_repr code ++ py " " ++ reason) ;;
           try_except
             (body <- read_decode body ;;
              print (py "Response body: " ++ body))
             (fun e' => if is_Exception e' then ret tt else raise e') ;;
           sys_exit 1
       | URLError reason =>
           print (py "Connection error: " ++ reason) ;;
           sys_exit 1
       | _ => raise e
       end).

(** [json.dump(data, f, ensure_ascii=False, indent=2)]: one [write] per
    chunk of the encoder. *)
Definition json_dump (data : json) (f : pystr) : M unit :=
  for_each (iterencode false 0 data) (write f).

Definition export_to_json (data : json) : M unit :=
  let filename := py "voices.json" in
  (f <- open_w filename ;;
   json_dump data f) ;;
  print (py "Wrote raw JSON to " ++ filename).

Definition fieldnames : list pystr :=
  [py "voice_id"; py "name"; py "category"; py "gender"; py "age"; py "accent";
   py "description"].

(** The body of the loop of [export_to_csv], up to the row it builds for
    the voice [v]. *)
Definition voice_row (v : json) : result (list (pystr * json)) :=
  (labels <- (labels <- py_get v (py "labels") (JObj []) ;; Ret (py_or labels (JObj []))) ;;
   voice_id <- py_get v (py "voice_id") (JStr []) ;;
   name <- py_get v (py "name") (JStr []) ;;
   category <- py_get v (py "category") (JStr []) ;;
   gender <- py_get labels (py "gender") (JStr []) ;;
   age <- py_get labels (py "age") (JStr []) ;;
   accent <- py_get labels (py "accent") (JStr []) ;;
   description <- py_get v (py "description") (JStr []) ;;
   Ret [(py "voice_id", voice_id); (py "name", name); (py "category", category);
        (py "gender", gender); (py "age", age); (py "accent", accent);
        (py "description", description)])%res.

Definition export_to_csv (data : json) : M unit :=
  let filename := py "voices.csv" in
  voices <- lift (py_get data (py "voices") (JArr [])) ;;
  (f <- open_w filename ;;
   writeheader f fieldnames ;;
   items <- lift (py_iter voices) ;;
   for_each items (fun v =>
     row <- lift (voice_row v) ;;
     writerow f fieldnames row)) ;;
  n <- lift (py_len voices) ;;
  print (py "Wrote CSV with " ++ int_repr n ++ py " voices to " ++ filename).

(** [s.startswith(p)] *)
Fixpoint is_prefix (p s : pystr) : bool :=
  match p, s with
  | [], _ => true
  | a :: p', b :: s' => (a =? b)%N && is_prefix p' s'
  | _ :: _, [] => false
  end.

(** [p in s] for two strings *)
Fixpoint is_substring (p s : pystr) : bool :=
  is_prefix p s || match s with [] => false | _ :: s' => is_substring p s' end.

(** [x in o] for a string [x]: a key of a dict, an item of a list, a
    substring of a string; nothing else is a container. *)
Definition py_in (x : pystr) (o : json) : result bool :=
  match o with
  | JObj kvs => Ret (match dict_lookup x kvs with Some _ => true | None => false end)
  | JArr l => Ret (existsb (fun v => match v with JStr s => pystr_eqb x s | _ => false end) l)
  | JStr s => Ret (is_substring x s)
  | _ => Raise TypeError
  end.

(** [main()], given [sys.argv] and the network. *)
Definition main (argv : list pystr) (net : transport) : M unit :=
  when (Z.of_nat (length argv) <? 2)
    (print (py "Usage: python export_elevenlabs_voices.py ELEVENLABS_API_KEY") ;;
     sys_exit 1) ;;
  let api_key := strip (nth 1 argv []) in
  when (match api_key with [] => true | _ => false end)
    (print (py "Error: empty API key.") ;;
     sys_exit 1) ;;
  print (py "Fetching voices from ElevenLabs...") ;;
  data <- fetch_voices net api_key ;;
  has_voices <- lift (py_in (py "voices") data) ;;
  when (negb has_voices)
    (print (py "Warning: 'voices' key not in response. Raw response:") ;;
     print (json_dumps true data) ;;
     sys_exit 1) ;;
  export_to_json data ;;
  export_to_csv data.

(** The state a run starts from: nothing printed, nothing sent, the
    files as they are on disk. *)
Definition initial (disk : gmap pystr pystr) : state := mkState [] disk [].

(** ** Auxiliary notions of the statements *)

(** What [main] does once the credential is accepted. *)
Definition fetch_and_export (net : transport) (api_key : pystr) : M unit :=
  print (py "Fetching voices from ElevenLabs...") ;;
  data <- fetch_voices net api_key ;;
  has_voices <- lift (py_in (py "voices") data) ;;
  when (negb has_voices)
    (print (py "Warning: 'voices' key not in response. Raw response:") ;;
     print (json_dumps true data) ;;
     sys_exit 1) ;;
  export_to_json data ;;
  export_to_csv data.

(** The command line carries no usable credential. *)
Definition usage_error (argv : list pystr) : Prop :=
  (length argv < 2)%nat \/
  ((2 <= length argv)%nat /\ forallb is_space (nth 1 argv []) = true).

(** The command line carries a credential [main] accepts. *)
Definition accepted_key (argv : list pystr) : Prop :=
  (2 <= length argv)%nat /\ strip (nth 1 argv []) <> [].

(** The request [fetch_voices] builds for a key. *)
Definition voices_request (api_key : pystr) : request :=
  add_header (py "xi-api-key") api_key (Request API_URL).

(** Statements that hand nothing to the network. *)
Definition offline {A} (m : M A) : Prop := forall st, sent (snd (m st)) = sent st.

(** Every string of a value, keys included, can be encoded as UTF-8:
    none holds a surrogate code point. *)
Fixpoint json_encodable (v : json) : bool :=
  match v with
  | JStr s => encodable s
  | JArr l => forallb json_encodable l
  | JObj l => forallb (fun kv => encodable (fst kv) && json_encodable (snd kv)) l
  | _ => true
  end.

(** The number of decoder steps a value takes. *)
Fixpoint size (v : json) : nat :=
  match v with
  | JArr l => S (list_sum (List.map (fun x => S (size x)) l))
  | JObj l => S (list_sum (List.map (fun kv => S (size (snd kv))) l))
  | _ => 1
  end.

(** The seven texts [export_to_csv] writes for one voice. *)
Definition voice_fields (v : json) : result (list pystr) :=
  (row <- voice_row v ;;
   map_result csv_field_text (dict_to_list fieldnames row))%res.

(** A field the data model allows: missing, [null], a boolean, an
    integer, or a string that can be encoded. *)
Definition text_cell (o : option json) : bool :=
  match o with
  | None => true
  | Some (JStr s) => encodable s
  | Some (JNull | JBool _ | JInt _) => true
  | Some (JArr _ | JObj _) => false
  end.

(** A voice record of the data model: a mapping whose exported fields are
    [text_cell]s and whose [labels], if there, is a mapping of such
    fields or a false value. *)
Definition voice_record (v : json) : bool :=
  match v with
  | JObj kvs =>
      forallb (fun k => text_cell (dict_lookup k kvs))
        [py "voice_id"; py "name"; py "category"; py "description"]
      && match dict_lookup (py "labels") kvs with
         | None => true
         | Some (JObj labels) =>
             forallb (fun k => text_cell (dict_lookup k labels))
               [py "gender"; py "age"; py "accent"]
         | Some other => negb (truthy other)
         end
  | _ => false
  end.

(** The value [labels] is bound to in the loop of [export_to_csv]. *)
Definition labels_of (kvs : list (pystr * json)) : json :=
  py_or (default (JObj []) (dict_lookup (py "labels") kvs)) (JObj []).


(** One turn of the loop of [export_to_csv]. *)
Definition write_voice (f : pystr) (v : json) : M unit :=
  row <- lift (voice_row v) ;;
  writerow f fieldnames row.

(** The text written in column [k] of the row of voice [v]. *)
Definition column (k : pystr) (v : json) : result pystr :=
  (row <- voice_row v ;;
   csv_field_text (default (JStr []) (dict_lookup k row)))%res.

Definition dquote : pystr := [34%N].

(** The header line of [voices.csv], character by character. *)
Definition header_line : pystr :=
  dquote ++ py "voice_id" ++ dquote ++ py "," ++ dquote ++ py "name" ++ dquote ++ py ","
  ++ dquote ++ py "category" ++ dquote ++ py "," ++ dquote ++ py "gender" ++ dquote
  ++ py "," ++ dquote ++ py "age" ++ dquote ++ py "," ++ dquote ++ py "accent" ++ dquote
  ++ py "," ++ dquote ++ py "description" ++ dquote ++ [13%N; 10%N].

(** What follows a value in the encoder's text: nothing, a comma or a
    line break. *)
Definition delimited (rest : pystr) : Prop :=
  match rest with
  | [] => True
  | c :: _ => c = 44%N \/ c = 10%N
  end.

(** A decimal number whose first digit is not zero. *)
Definition nonzero_head (d : Decimal.uint) : Prop :=
  match d with
  | Nil | D0 _ => False
  | _ => True
  end.

(** The text of one key and its value, as the encoder writes them. *)
Definition pair_text (level : nat) (kv : pystr * json) : pystr :=
  encode_basestring false (fst kv) ++ py ": " ++ encode_text false level (snd kv).

(** What the encoder writes after an item at [S level]: the separator
    and the items left, then the line of the closing bracket. *)
Definition closing (level : nat) (closer : pystr) (parts : list pystr) (rest : pystr)
  : pystr :=
  match parts with
  | [] => newline_indent level ++ closer ++ rest
  | _ :: _ =>
      py "," ++ newline_indent (S level)
      ++ join (py "," ++ newline_indent (S level)) parts
      ++ newline_indent level ++ closer ++ rest
  end.

(** The decoder reads the text of [v] back, with fuel for its size and
    whatever delimiter after it. *)
Definition decodes (v : json) : Prop :=
  forall fuel level rest,
    wf_json v = true -> (size v <= fuel)%nat -> delimited rest ->
    scan_once fuel (encode_text false level v ++ rest) = Ret (v, rest).

(** ** Reference outcomes of the exports *)

(** The chunks [json.dump] gets into the file: those before the first
    one the codec refuses. *)
Fixpoint written_chunks (chunks : list pystr) : list pystr :=
  match chunks with
  | [] => []
  | chunk :: rest => if encodable chunk then chunk :: written_chunks rest else []
  end.

(** The records the loop of [export_to_csv] gets into the file for the
    voices [vs], and the exception that stops it, if any. *)
Fixpoint csv_rows (vs : list json) : list (list pystr) * option exception :=
  match vs with
  | [] => ([], None)
  | v :: rest =>
      match voice_fields v with
      | Raise e => ([], Some e)
      | Ret fields =>
          if encodable (csv_line fields) then
            let (rows, stop) := csv_rows rest in (fields :: rows, stop)
          else ([], Some UnicodeEncodeError)
      end
  end.

(** The value [export_to_csv] iterates over. *)
Definition voices_of (kvs : list (pystr * json)) : json :=
  default (JArr []) (dict_lookup (py "voices") kvs).

(** The confirmation line of [export_to_csv]. *)
Definition csv_message (n : nat) : pystr :=
  py "Wrote CSV with " ++ int_repr (Z.of_nat n) ++ py " voices to " ++ py "voices.csv".

(** Files written over, last write first. *)
Definition apply_writes (writes : list (pystr * pystr)) (disk : gmap pystr pystr)
  : gmap pystr pystr :=
  fold_right (fun kv m => <[fst kv := snd kv]> m) disk writes.

(** A string with something in it and no whitespace at either end. *)
Definition trimmed (s : pystr) : Prop :=
  s <> []
  /\ (forall c r, s = c :: r -> is_space c = false)
  /\ (forall c r, s = r ++ [c] -> is_space c = false).

(** What [main] does with the structure it fetched. *)
Definition validate_and_export (data : json) : M unit :=
  has_voices <- lift (py_in (py "voices") data) ;;
  when (negb has_voices)
    (print (py "Warning: 'voices' key not in response. Raw response:") ;;
     print (json_dumps true data) ;;
     sys_exit 1) ;;
  export_to_json data ;;
  export_to_csv data.

(** The state in which the fetch leaves a run that started in [st]. *)
Definition fetched (st : state) (api_key : pystr) : state :=
  mkState (stdout st ++ [py "Fetching voices from ElevenLabs..."]) (files st)
    (sent st ++ [voices_request api_key]).

(** The network answers the request for [api_key] with a 2xx response
    whose body decodes to [data]. *)
Definition answers (net : transport) (api_key : pystr) (data : json) : Prop :=
  exists status reason text,
    net (voices_request api_key) = HttpResponse status reason (Some text)
    /\ 200 <= status < 300 /\ json_loads text = Ret data.

(** What [export_to_csv] does for a mapping: how it ends, what it prints
    and what it leaves in [voices.csv]. *)
Definition csv_outcome (kvs : list (pystr * json)) : result unit * list pystr * pystr :=
  match py_iter (voices_of kvs) with
  | Raise e => (Raise e, [], header_line)
  | Ret items =>
      let written := header_line ++ concat (List.map csv_line (fst (csv_rows items))) in
      match snd (csv_rows items) with
      | Some e => (Raise e, [], written)
      | None => (Ret tt, [csv_message (length items)], written)
      end
  end.

(** * Properties *)

(** ** The embedding on concrete inputs *)

Example int_repr_negative : int_repr (-1204) = py "-1204".
Proof. reflexivity. Qed.

Example strip_both_sides : strip (py "  sk 1 " ++ [160%N; 10%N]) = py "sk 1".
Proof. reflexivity. Qed.

Example json_dumps_indent :
  json_dumps false (JObj [(py "a", JArr [JInt 1; JNull]); (py "b", JObj [])])
  = py "{" ++ [10%N] ++ py "  " ++ dquote ++ py "a" ++ dquote ++ py ": [" ++ [10%N]
    ++ py "    1," ++ [10%N] ++ py "    null" ++ [10%N] ++ py "  ]," ++ [10%N]
    ++ py "  " ++ dquote ++ py "b" ++ dquote ++ py ": {}" ++ [10%N] ++ py "}".
Proof. reflexivity. Qed.

Example json_dumps_ascii_escapes :
  json_dumps true (JStr [233%N; 128512%N; 9%N])
  = dquote ++ py "\u00e9\ud83d\ude00\t" ++ dquote.
Proof. reflexivity. Qed.

Example json_loads_duplicate_key :
  json_loads (py "{" ++ dquote ++ py "a" ++ dquote ++ py ":1, " ++ dquote ++ py "b"
              ++ dquote ++ py ":[], " ++ dquote ++ py "a" ++ dquote ++ py ": -0}")
  = Ret (JObj [(py "a", JInt 0); (py "b", JArr [])]).
Proof. reflexivity. Qed.

Example json_loads_float : json_loads (py "[1, 2.5]") = Raise NotModelled.
Proof. reflexivity. Qed.

Example json_loads_trailing_comma : json_loads (py "[1, 2,]") = Raise JSONDecodeError.
Proof. reflexivity. Qed.

Example csv_line_quotes :
  csv_line [py "a,b"; []; dquote ++ py "x"]
  = dquote ++ py "a,b" ++ dquote ++ py "," ++ dquote ++ dquote ++ py "," ++ dquote
    ++ dquote ++ dquote ++ py "x" ++ dquote ++ [13%N; 10%N].
Proof. reflexivity. Qed.

(** A whole run: two voices, one of them with null [labels]. *)
Example main_success :
  main [py "export_elevenlabs_voices.py"; py " key "]
    (fun _ => HttpResponse 200 (py "OK")
       (Some (json_dumps true
                (JObj [(py "voices",
                        JArr [JObj [(py "voice_id", JStr (py "v1"));
                                    (py "name", JStr (py "Ada"));
                                    (py "labels", JObj [(py "accent", JStr (py "british"))])];
                              JObj [(py "voice_id", JStr (py "v2"));
                                    (py "labels", JNull)]])]))))
    (initial ∅)
  = (Ret tt,
     mkState [py "Fetching voices from ElevenLabs...";
              py "Wrote raw JSON to voices.json";
              py "Wrote CSV with 2 voices to voices.csv"]
       (<[py "voices.csv" :=
            header_line
            ++ csv_line [py "v1"; py "Ada"; []; []; []; py "british"; []]
            ++ csv_line [py "v2"; []; []; []; []; []; []]]>
          (<[py "voices.json" :=
               json_dumps false
                 (JObj [(py "voices",
                         JArr [JObj [(py "voice_id", JStr (py "v1"));
                                     (py "name", JStr (py "Ada"));
                                     (py "labels",
                                      JObj [(py "accent", JStr (py "british"))])];
                               JObj [(py "voice_id", JStr (py "v2"));
                                     (py "labels", JNull)]])])]> ∅))
       [voices_request (py "key")]).
Proof. vm_compute. reflexivity. Qed.


(** ** Strings *)

Lemma pystr_eqb_eq (a b : pystr) : pystr_eqb a b = true <-> a = b.
Proof. unfold pystr_eqb. apply bool_decide_eq_true. Qed.

Lemma pystr_eqb_refl (a : pystr) : pystr_eqb a a = true.
Proof. by apply pystr_eqb_eq. Qed.

Lemma lstrip_nil_iff (s : pystr) : lstrip s = [] <-> forallb is_space s = true.
Proof.
  induction s as [|c r IH]; simpl; [tauto|].
  destruct (is_space c); simpl; [exact IH|].
  split; discriminate.
Qed.

Lemma lstrip_head (s : pystr) c r : lstrip s = c :: r -> is_space c = false.
Proof.
  induction s as [|a s IH]; simpl; [discriminate|].
  destruct (is_space a) eqn:Ha; [exact IH|].
  intros [= <- _]. exact Ha.
Qed.

Lemma forallb_rev {A} (f : A -> bool) (l : list A) : forallb f (rev l) = forallb f l.
Proof.
  induction l as [|a l IH]; simpl; [reflexivity|].
  rewrite forallb_app, IH. simpl. rewrite andb_true_r. apply andb_comm.
Qed.

(** [strip] leaves nothing exactly when every character is whitespace. *)
Lemma strip_nil_iff (s : pystr) : strip s = [] <-> forallb is_space s = true.
Proof.
  unfold strip, rstrip.
  rewrite <- (rev_involutive []) at 1. simpl.
  split.
  - intros H. apply (f_equal (@rev N)) in H. rewrite rev_involutive in H. simpl in H.
    apply lstrip_nil_iff in H. rewrite forallb_rev in H.
    destruct (lstrip s) as [|c r] eqn:E.
    + by apply lstrip_nil_iff.
    + apply lstrip_head in E. simpl in H. rewrite E in H. discriminate.
  - intros H. apply lstrip_nil_iff in H. rewrite H. reflexivity.
Qed.

(** ** The credential check of [main] *)


Lemma main_with_key (argv : list pystr) net st :
  accepted_key argv ->
  main argv net st = fetch_and_export net (strip (nth 1 argv [])) st.
Proof.
  intros [Hlen Hkey]. unfold main, fetch_and_export.
  destruct (Z.of_nat (length argv) <? 2) eqn:E; [apply Z.ltb_lt in E; lia|].
  unfold bind at 1. simpl.
  destruct (strip (nth 1 argv [])) as [|c r] eqn:Ek; [congruence|].
  reflexivity.
Qed.


(** C6. Invoked with no credential argument, or with one that is empty
    once its surrounding whitespace is trimmed (that is, one made of
    whitespace only), the program prints one message (the usage line
    in the first case, the empty-key error in the second), exits with
    status 1, hands no request to the network and leaves the files
    alone. *)
Theorem main_usage_error (argv : list pystr) net st :
  usage_error argv ->
  main argv net st
  = (Raise (SystemExit 1),
     mkState (stdout st
                ++ [if (length argv <? 2)%nat
                    then py "Usage: python export_elevenlabs_voices.py ELEVENLABS_API_KEY"
                    else py "Error: empty API key."])
       (files st) (sent st))
  /\ exit_status (fst (main argv net st)) = Some 1
  /\ sent (snd (main argv net st)) = sent st.
Proof.
  intros Hu.
  match goal with |- ?l = ?r /\ _ => assert (E0 : l = r) end.
  { destruct Hu as [Hlen | [Hlen Hsp]].
    - replace (length argv <? 2)%nat with true by (symmetry; apply Nat.ltb_lt; lia).
      unfold main. destruct (Z.of_nat (length argv) <? 2) eqn:E; [reflexivity|].
      apply Z.ltb_ge in E. lia.
    - replace (length argv <? 2)%nat with false by (symmetry; apply Nat.ltb_ge; lia).
      unfold main. destruct (Z.of_nat (length argv) <? 2) eqn:E.
      + apply Z.ltb_lt in E. lia.
      + apply strip_nil_iff in Hsp. unfold bind at 1. simpl. rewrite Hsp.
        destruct st. reflexivity. }
  rewrite E0. auto.
Qed.

Lemma main_usage_error_witness :
  main [py "export_elevenlabs_voices.py"; py "   "] (fun _ => ConnectionFailure [])
    (initial ∅)
  = (Raise (SystemExit 1), mkState [py "Error: empty API key."] ∅ []).
Proof.
  refine (proj1 (main_usage_error [py "export_elevenlabs_voices.py"; py "   "]
                   (fun _ => ConnectionFailure []) (initial ∅) _)).
  right. split; [simpl; lia | reflexivity].
Defined.

(** ** The request and its traces *)



Lemma offline_ret {A} (a : A) : offline (ret a).
Proof. intros st. reflexivity. Qed.

Lemma offline_raise {A} e : offline (@raise A e).
Proof. intros st. reflexivity. Qed.

Lemma offline_lift {A} (r : result A) : offline (lift r).
Proof. intros st. reflexivity. Qed.

Lemma offline_print line : offline (print line).
Proof. intros st. reflexivity. Qed.

Lemma offline_open_w name : offline (open_w name).
Proof. intros st. reflexivity. Qed.

Lemma offline_write f text : offline (write f text).
Proof. intros st. unfold write. destruct (encodable text); reflexivity. Qed.

Lemma offline_bind {A B} (m : M A) (k : A -> M B) :
  offline m -> (forall a, offline (k a)) -> offline (bind m k).
Proof.
  intros Hm Hk st. unfold bind. specialize (Hm st).
  destruct (m st) as [[a|e] st']; simpl in *; [|exact Hm].
  rewrite Hk. exact Hm.
Qed.

Lemma offline_when c (m : M unit) : offline m -> offline (when c m).
Proof. intros H. destruct c; simpl; [exact H | apply offline_ret]. Qed.

Lemma offline_for_each {A} (l : list A) (body : A -> M unit) :
  (forall x, offline (body x)) -> offline (for_each l body).
Proof.
  intros H. induction l as [|x l IH]; simpl; [apply offline_ret|].
  apply offline_bind; auto.
Qed.

Create HintDb offline.
#[local] Hint Resolve offline_ret offline_raise offline_lift offline_print offline_open_w
  offline_write offline_when : offline.
#[local] Hint Extern 2 (offline (bind _ _)) => apply offline_bind; [|intros ?] : offline.
#[local] Hint Extern 2 (offline (for_each _ _)) => apply offline_for_each; intros ? : offline.

Lemma offline_sys_exit {A} code : offline (@sys_exit A code).
Proof. apply offline_raise. Qed.
#[local] Hint Resolve offline_sys_exit : offline.

Lemma offline_export_to_json data : offline (export_to_json data).
Proof. unfold export_to_json, json_dump. auto 10 with offline. Qed.

Lemma offline_export_to_csv data : offline (export_to_csv data).
Proof. unfold export_to_csv, writeheader, writerow. auto 20 with offline. Qed.
#[local] Hint Resolve offline_export_to_json offline_export_to_csv : offline.

(** [fetch_voices] hands exactly one request to the network. *)
Lemma fetch_voices_sent net api_key st :
  sent (snd (fetch_voices net api_key st)) = sent st ++ [voices_request api_key].
Proof.
  unfold fetch_voices, try_except, bind, urlopen. fold (voices_request api_key).
  destruct (net (voices_request api_key)) as [status reason body | reason].
  - destruct ((200 <=? status) && (status <? 300)).
    + destruct body as [text|]; simpl; [|reflexivity].
      unfold lift. destruct (json_loads text) as [v|e]; [reflexivity|].
      destruct e as [| | | | |code' reason' body'| | |]; try reflexivity.
      destruct body'; reflexivity.
    + destruct body; reflexivity.
  - reflexivity.
Qed.

Lemma fetch_and_export_sent net api_key st :
  sent (snd (fetch_and_export net api_key st)) = sent st ++ [voices_request api_key].
Proof.
  unfold fetch_and_export. unfold bind at 1. simpl.
  unfold bind at 1.
  pose proof (fetch_voices_sent net api_key
                (mkState (stdout st ++ [py "Fetching voices from ElevenLabs..."])
                   (files st) (sent st))) as H.
  destruct (fetch_voices net api_key _) as [[data|e] st1]; simpl in *; [|exact H].
  rewrite <- H.
  assert (Hoff : offline (has_voices <- lift (py_in (py "voices") data) ;;
     when (negb has_voices)
       (print (py "Warning: 'voices' key not in response. Raw response:") ;;
        print (json_dumps true data) ;; sys_exit 1) ;;
     export_to_json data ;; export_to_csv data)).
  { auto 20 with offline. }
  apply Hoff.
Qed.

(** C8 (amended). Whenever the credential is accepted, the program
    hands exactly one request to the network: a GET of the voices
    endpoint whose only header is [xi-api-key], with the command-line
    argument stripped of its surrounding whitespace as value; an
    argument without surrounding whitespace is forwarded unchanged. *)
Theorem main_forwards_stripped_credential (argv : list pystr) net st :
  accepted_key argv ->
  sent (snd (main argv net st))
  = sent st ++ [mkRequest API_URL None [(py "xi-api-key", strip (nth 1 argv []))]]
  /\ get_method (mkRequest API_URL None [(py "xi-api-key", strip (nth 1 argv []))])
     = py "GET"
  /\ (strip (nth 1 argv []) = nth 1 argv [] ->
      sent (snd (main argv net st))
      = sent st ++ [mkRequest API_URL None [(py "xi-api-key", nth 1 argv [])]]).
Proof.
  intros Hkey. rewrite main_with_key by assumption.
  rewrite fetch_and_export_sent. unfold voices_request, add_header, Request. simpl.
  split; [reflexivity|]. split; [reflexivity|].
  intros ->. reflexivity.
Qed.

Lemma main_forwards_stripped_credential_witness :
  sent (snd (main [py "export_elevenlabs_voices.py"; py "sk_123"]
               (fun _ => ConnectionFailure (py "unreachable")) (initial ∅)))
  = [mkRequest API_URL None [(py "xi-api-key", py "sk_123")]].
Proof.
  refine (proj1 (main_forwards_stripped_credential
                   [py "export_elevenlabs_voices.py"; py "sk_123"]
                   (fun _ => ConnectionFailure (py "unreachable")) (initial ∅) _)).
  split; [simpl; lia | discriminate].
Defined.

(** C8, as stated, fails: the argument [" sk_123 "] reaches the network
    as ["sk_123"]. *)
Lemma credential_not_forwarded_verbatim :
  sent (snd (main [py "export_elevenlabs_voices.py"; py " sk_123 "]
               (fun _ => ConnectionFailure (py "unreachable")) (initial ∅)))
  = [mkRequest API_URL None [(py "xi-api-key", py "sk_123")]]
  /\ py "sk_123" <> py " sk_123 ".
Proof. split; [reflexivity | discriminate]. Qed.

(** Every command line is refused or accepted. *)
Lemma usage_error_or_accepted (argv : list pystr) : usage_error argv \/ accepted_key argv.
Proof.
  unfold usage_error, accepted_key.
  destruct (le_lt_dec 2 (length argv)) as [H|H]; [|auto].
  destruct (forallb is_space (nth 1 argv [])) eqn:E; [auto|].
  right. split; [exact H|]. intros Hs. apply strip_nil_iff in Hs. congruence.
Qed.

(** ** The failure paths of the fetch *)

Lemma fetch_voices_http_error net api_key st code reason body :
  net (voices_request api_key) = HttpResponse code reason body ->
  (200 <=? code) && (code <? 300) = false ->
  fetch_voices net api_key st
  = (Raise (SystemExit 1),
     mkState (stdout st ++ [py "HTTP error: " ++ int_repr code ++ py " " ++ reason]
                ++ match body with
                   | Some text => [py "Response body: " ++ text]
                   | None => []
                   end)
       (files st) (sent st ++ [voices_request api_key])).
Proof.
  intros Hnet Hcode.
  unfold fetch_voices, try_except. fold (voices_request api_key).
  unfold bind at 1. unfold urlopen. rewrite Hnet, Hcode.
  destruct body as [text|]; cbn -[py int_repr app].
  - rewrite <- app_assoc. reflexivity.
  - rewrite app_nil_r. reflexivity.
Qed.

(** C5. When the API answers with a status of 400 or more, the program
    prints the status code and the reason phrase, then the response
    body if it can be read and decoded (a failure of that read is
    swallowed), and exits with status 1; no file is touched. *)
Theorem main_http_error (argv : list pystr) net st code reason body :
  accepted_key argv ->
  net (voices_request (strip (nth 1 argv []))) = HttpResponse code reason body ->
  400 <= code ->
  main argv net st
  = (Raise (SystemExit 1),
     mkState (stdout st
                ++ [py "Fetching voices from ElevenLabs...";
                    py "HTTP error: " ++ int_repr code ++ py " " ++ reason]
                ++ match body with
                   | Some text => [py "Response body: " ++ text]
                   | None => []
                   end)
       (files st) (sent st ++ [voices_request (strip (nth 1 argv []))]))
  /\ exit_status (fst (main argv net st)) = Some 1
  /\ files (snd (main argv net st)) = files st.
Proof.
  intros Hkey Hnet Hcode.
  assert (E : (200 <=? code) && (code <? 300) = false).
  { apply andb_false_iff. right. apply Z.ltb_ge. lia. }
  match goal with |- ?l = ?r /\ _ => assert (E0 : l = r) end.
  { rewrite main_with_key by assumption.
    unfold fetch_and_export. unfold bind at 1. cbn -[py fetch_voices bind app].
    unfold bind at 1.
    rewrite (fetch_voices_http_error _ _ _ _ _ _ Hnet E).
    cbn -[py int_repr app]. rewrite <- !app_assoc. reflexivity. }
  rewrite E0. auto.
Qed.

Lemma main_http_error_witness :
  main [py "export_elevenlabs_voices.py"; py "bad"]
    (fun _ => HttpResponse 401 (py "Unauthorized") (Some (py "{'detail':'invalid key'}")))
    (initial ∅)
  = (Raise (SystemExit 1),
     mkState [py "Fetching voices from ElevenLabs...";
              py "HTTP error: 401 Unauthorized";
              py "Response body: {'detail':'invalid key'}"]
       ∅ [voices_request (py "bad")]).
Proof.
  refine (proj1 (main_http_error [py "export_elevenlabs_voices.py"; py "bad"]
                   (fun _ => HttpResponse 401 (py "Unauthorized")
                               (Some (py "{'detail':'invalid key'}")))
                   (initial ∅) 401 (py "Unauthorized")
                   (Some (py "{'detail':'invalid key'}")) _ _ _)).
  - split; [simpl; lia | discriminate].
  - reflexivity.
  - lia.
Defined.

(** ** Writing text files *)

Lemma encodable_app (a b : pystr) : encodable (a ++ b) = encodable a && encodable b.
Proof. apply forallb_app. Qed.

Lemma encodable_concat (chunks : list pystr) :
  encodable (concat chunks) = forallb encodable chunks.
Proof.
  induction chunks as [|c r IH]; simpl; [reflexivity|].
  rewrite encodable_app, IH. reflexivity.
Qed.

Lemma write_ok f text st c :
  files st !! f = Some c -> encodable text = true ->
  write f text st
  = (Ret tt, mkState (stdout st) (<[f := c ++ text]> (files st)) (sent st)).
Proof. intros Hf He. unfold write. rewrite He, Hf. reflexivity. Qed.

(** Chunks that can all be encoded end up in the file, in order. *)
Lemma for_each_write f chunks st c :
  files st !! f = Some c -> forallb encodable chunks = true ->
  for_each chunks (write f) st
  = (Ret tt, mkState (stdout st) (<[f := c ++ concat chunks]> (files st)) (sent st)).
Proof.
  revert st c. induction chunks as [|chunk r IH]; intros st c Hf He; simpl.
  - rewrite app_nil_r, insert_id by exact Hf. destruct st; reflexivity.
  - simpl in He. apply andb_true_iff in He as [He1 He2].
    unfold bind. rewrite (write_ok _ _ _ _ Hf He1).
    rewrite (IH _ (c ++ chunk)); [|apply lookup_insert_eq | exact He2].
    simpl. rewrite insert_insert_eq, app_assoc. reflexivity.
Qed.

(** [export_to_json] on a value whose text can be encoded. *)
Lemma export_to_json_ok data st :
  encodable (json_dumps false data) = true ->
  export_to_json data st
  = (Ret tt,
     mkState (stdout st ++ [py "Wrote raw JSON to " ++ py "voices.json"])
       (<[py "voices.json" := json_dumps false data]> (files st)) (sent st)).
Proof.
  intros He. unfold export_to_json, json_dump, json_dumps in *.
  rewrite encodable_concat in He.
  unfold bind at 1. unfold bind at 1. unfold open_w.
  rewrite (for_each_write _ _ _ []); [|apply lookup_insert_eq | exact He].
  cbn -[py iterencode app]. rewrite insert_insert_eq. reflexivity.
Qed.

(** ** The rows of the CSV export *)

Lemma dict_to_list_row a b c d e f g :
  dict_to_list fieldnames
    [(py "voice_id", a); (py "name", b); (py "category", c); (py "gender", d);
     (py "age", e); (py "accent", f); (py "description", g)]
  = [a; b; c; d; e; f; g].
Proof. reflexivity. Qed.


(** The row of a mapping, given the mapping its [labels] stand for. *)
Lemma voice_row_labels kvs labels :
  labels_of kvs = JObj labels ->
  voice_row (JObj kvs)
  = Ret [(py "voice_id", default (JStr []) (dict_lookup (py "voice_id") kvs));
         (py "name", default (JStr []) (dict_lookup (py "name") kvs));
         (py "category", default (JStr []) (dict_lookup (py "category") kvs));
         (py "gender", default (JStr []) (dict_lookup (py "gender") labels));
         (py "age", default (JStr []) (dict_lookup (py "age") labels));
         (py "accent", default (JStr []) (dict_lookup (py "accent") labels));
         (py "description", default (JStr []) (dict_lookup (py "description") kvs))].
Proof.
  unfold labels_of, voice_row. cbn [py_get rbind]. intros ->. reflexivity.
Qed.

(** A [labels] value that is not a mapping and not false breaks the row. *)
Lemma voice_row_bad_labels kvs :
  (forall labels, labels_of kvs <> JObj labels) ->
  voice_row (JObj kvs) = Raise AttributeError.
Proof.
  unfold labels_of, voice_row. cbn [py_get rbind]. intros H.
  destruct (py_or _ _) as [| | | | |l]; try reflexivity.
  exfalso. by apply (H l).
Qed.

Lemma labels_of_absent kvs :
  dict_lookup (py "labels") kvs = None -> labels_of kvs = JObj [].
Proof. unfold labels_of. intros ->. reflexivity. Qed.

Lemma labels_of_false kvs v :
  dict_lookup (py "labels") kvs = Some v -> truthy v = false -> labels_of kvs = JObj [].
Proof. unfold labels_of, py_or. intros -> H. simpl. rewrite H. reflexivity. Qed.

Lemma labels_of_dict kvs l :
  dict_lookup (py "labels") kvs = Some (JObj l) -> labels_of kvs = JObj l.
Proof. unfold labels_of, py_or. intros ->. destruct l; reflexivity. Qed.

Lemma encodable_uint_digits d : encodable (uint_digits d) = true.
Proof. induction d; simpl; auto. Qed.

Lemma encodable_int_repr z : encodable (int_repr z) = true.
Proof.
  unfold int_repr. destruct (Z.to_int z); simpl; apply encodable_uint_digits.
Qed.

Lemma field_of_text_cell o :
  text_cell o = true ->
  exists t, csv_field_text (default (JStr []) o) = Ret t /\ encodable t = true.
Proof.
  destruct o as [[| [|] | z | s | l | l]|]; simpl; intros H; try discriminate;
    eauto using encodable_int_repr.
Qed.

Lemma encodable_csv_quote s : encodable s = true -> encodable (csv_quote s) = true.
Proof.
  intros H. unfold csv_quote. change (34%N :: ?x) with ([34%N] ++ x).
  rewrite !encodable_app. simpl. rewrite andb_true_r.
  induction s as [|c r IH]; simpl in *; [reflexivity|].
  apply andb_true_iff in H as [Hc Hr]. rewrite encodable_app, IH by exact Hr.
  destruct (c =? 34)%N; simpl; [reflexivity|]. rewrite Hc. reflexivity.
Qed.

Lemma encodable_join sep parts :
  encodable sep = true -> forallb encodable parts = true ->
  encodable (join sep parts) = true.
Proof.
  intros Hs. induction parts as [|p r IH]; simpl; [reflexivity|].
  intros H. apply andb_true_iff in H as [Hp Hr].
  destruct r as [|q r']; [exact Hp|].
  rewrite !encodable_app, Hp, Hs, IH by exact Hr. reflexivity.
Qed.

Lemma encodable_csv_line fields :
  forallb encodable fields = true -> encodable (csv_line fields) = true.
Proof.
  intros H. unfold csv_line. rewrite encodable_app. apply andb_true_iff. split; [|reflexivity].
  apply encodable_join; [reflexivity|].
  induction fields as [|x r IH]; [reflexivity|].
  cbn [forallb List.map] in *.
  apply andb_true_iff in H as [Hx Hr]. rewrite encodable_csv_quote, IH by assumption.
  reflexivity.
Qed.

(** A voice record of the data model always yields its seven texts, and
    they can be encoded. *)
Lemma voice_record_fields v :
  voice_record v = true ->
  exists fields,
    voice_fields v = Ret fields /\ length fields = 7%nat /\
    encodable (csv_line fields) = true.
Proof.
  destruct v as [| | | | |kvs]; try discriminate.
  unfold voice_record. cbn [forallb]. rewrite !andb_true_iff.
  intros [(H1 & H2 & H3 & H4 & _) HL].
  assert (exists labels, labels_of kvs = JObj labels /\
            text_cell (dict_lookup (py "gender") labels) = true /\
            text_cell (dict_lookup (py "age") labels) = true /\
            text_cell (dict_lookup (py "accent") labels) = true)
    as (labels & EL & H5 & H6 & H7).
  { destruct (dict_lookup (py "labels") kvs) as [lab|] eqn:E.
    - destruct lab as [| b | z | s | l | l];
        try (exists []; split; [apply (labels_of_false _ _ E);
                                  by apply negb_true_iff in HL | by repeat split]).
      exists l. split; [by apply labels_of_dict|].
      cbn [forallb] in HL. rewrite !andb_true_iff in HL. tauto.
    - exists []. split; [by apply labels_of_absent | by repeat split]. }
  unfold voice_fields. rewrite (voice_row_labels _ _ EL). cbn [rbind].
  rewrite dict_to_list_row.
  destruct (field_of_text_cell _ H1) as (t1 & E1 & C1).
  destruct (field_of_text_cell _ H2) as (t2 & E2 & C2).
  destruct (field_of_text_cell _ H3) as (t3 & E3 & C3).
  destruct (field_of_text_cell _ H4) as (t4 & E4 & C4).
  destruct (field_of_text_cell _ H5) as (t5 & E5 & C5).
  destruct (field_of_text_cell _ H6) as (t6 & E6 & C6).
  destruct (field_of_text_cell _ H7) as (t7 & E7 & C7).
  exists [t1; t2; t3; t5; t6; t7; t4].
  cbn [map_result]. rewrite E1, E2, E3, E4, E5, E6, E7.
  split; [reflexivity|]. split; [reflexivity|].
  apply encodable_csv_line. cbn [forallb].
  rewrite C1, C2, C3, C4, C5, C6, C7. reflexivity.
Qed.

(** ** The loop of [export_to_csv] *)


Lemma write_voice_fields f v st :
  write_voice f v st
  = match voice_fields v with
    | Ret fields => write f (csv_line fields) st
    | Raise e => (Raise e, st)
    end.
Proof.
  unfold write_voice, voice_fields, writerow, bind, lift.
  destruct (voice_row v) as [row|e]; cbn [rbind]; [|reflexivity].
  destruct (map_result csv_field_text (dict_to_list fieldnames row)); reflexivity.
Qed.

Lemma writeheader_fieldnames f st :
  writeheader f fieldnames st = write f (csv_line fieldnames) st.
Proof. reflexivity. Qed.

(** Whatever the loop does, the file only grows by whole quoted records. *)
Lemma write_voices_any f vs st c :
  files st !! f = Some c ->
  exists rows,
    snd (for_each vs (write_voice f) st)
    = mkState (stdout st) (<[f := c ++ concat (List.map csv_line rows)]> (files st))
        (sent st).
Proof.
  revert st c. induction vs as [|v vs IH]; intros st c Hf.
  - exists []. simpl. rewrite app_nil_r, insert_id by exact Hf. by destruct st.
  - cbn [for_each]. unfold bind. rewrite write_voice_fields.
    destruct (voice_fields v) as [fields|e].
    + destruct (encodable (csv_line fields)) eqn:He.
      * rewrite (write_ok _ _ _ _ Hf He).
        destruct (IH (mkState (stdout st) (<[f:=c ++ csv_line fields]> (files st)) (sent st))
                    (c ++ csv_line fields)) as [rows Hrows]; [apply lookup_insert_eq|].
        exists (fields :: rows). rewrite Hrows. cbn [stdout files sent List.map concat].
        rewrite insert_insert_eq, app_assoc. reflexivity.
      * unfold write. rewrite He. exists []. simpl. rewrite app_nil_r, insert_id by exact Hf. by destruct st.
    + exists []. simpl. rewrite app_nil_r, insert_id by exact Hf. by destruct st.
Qed.


Lemma voice_records_rows vs :
  Forall (fun v => voice_record v = true) vs ->
  exists rows,
    Forall2 (fun v row => voice_fields v = Ret row /\ encodable (csv_line row) = true) vs rows.
Proof.
  induction 1 as [|v vs Hv _ [rows IH]]; [by exists []|].
  destruct (voice_record_fields v Hv) as (row & E & _ & He).
  exists (row :: rows). by constructor.
Qed.

(** [export_to_csv] up to the loop: the file is opened and the header
    written. *)
Lemma export_to_csv_unfold kvs st :
  export_to_csv (JObj kvs) st
  = let voices := default (JArr []) (dict_lookup (py "voices") kvs) in
    let st1 := mkState (stdout st) (<[py "voices.csv" := csv_line fieldnames]> (files st))
                 (sent st) in
    match py_iter voices with
    | Raise e => (Raise e, st1)
    | Ret items =>
        match for_each items (write_voice (py "voices.csv")) st1 with
        | (Raise e, st2) => (Raise e, st2)
        | (Ret _, st2) =>
            (n <- lift (py_len voices) ;;
             print (py "Wrote CSV with " ++ int_repr n ++ py " voices to "
                    ++ py "voices.csv")) st2
        end
    end.
Proof.
  unfold export_to_csv. cbn [py_get lift]. unfold bind at 1. cbn [lift].
  unfold bind at 1. unfold bind at 1. unfold open_w.
  unfold bind at 1. rewrite writeheader_fieldnames.
  rewrite (write_ok _ _ _ []); [|apply lookup_insert_eq | reflexivity].
  cbn [stdout files sent]. rewrite insert_insert_eq, app_nil_l.
  unfold bind at 1. unfold lift at 1.
  destruct (py_iter _) as [items|e]; [|reflexivity].
  reflexivity.
Qed.

(** ** The CSV export *)

(** C3. For a mapping, whatever happens later, [voices.csv] holds the
    header record followed by whole records, each written by the
    quoting writer; any other input raises before the file is opened.
    The header is the seven names in order, and a record is its fields,
    each between double quotes (an empty field is two quotes), separated
    by commas and ended by CR LF. *)
Theorem export_to_csv_header_and_quoting data st :
  match data with
  | JObj _ =>
      exists rows,
        files (snd (export_to_csv data st)) !! py "voices.csv"
        = Some (concat (List.map csv_line (fieldnames :: rows)))
  | _ => export_to_csv data st = (Raise AttributeError, st)
  end
  /\ csv_line fieldnames = header_line
  /\ (forall fields,
        csv_line fields = join (py ",") (List.map csv_quote fields) ++ [13%N; 10%N])
  /\ (forall s, exists body, csv_quote s = dquote ++ body ++ dquote)
  /\ csv_quote [] = dquote ++ dquote.
Proof.
  split; [|split; [reflexivity | split; [reflexivity | split; [|reflexivity]]]].
  - destruct data as [| | | | |kvs]; try reflexivity.
    rewrite export_to_csv_unfold. cbv zeta.
    destruct (py_iter _) as [items|e].
    + destruct (write_voices_any (py "voices.csv") items
                  (mkState (stdout st)
                     (<[py "voices.csv" := csv_line fieldnames]> (files st)) (sent st))
                  (csv_line fieldnames)) as [rows Hrows]; [apply lookup_insert_eq|].
      exists rows.
      destruct (for_each items _ _) as [[[]|e] st2]; cbn [snd] in Hrows; subst st2.
      * unfold bind, lift.
        destruct (py_len _); cbn [snd files print]; rewrite lookup_insert_eq; reflexivity.
      * cbn [snd files]. rewrite lookup_insert_eq. reflexivity.
    + exists []. cbn [snd files List.map concat]. rewrite lookup_insert_eq, app_nil_r.
      reflexivity.
  - intros s. eexists. reflexivity.
Qed.




(** ** Missing fields *)



Lemma column_label kvs labels k :
  labels_of kvs = JObj labels ->
  In k [py "gender"; py "age"; py "accent"] ->
  column k (JObj kvs) = csv_field_text (default (JStr []) (dict_lookup k labels)).
Proof.
  intros EL Hk. unfold column. rewrite (voice_row_labels _ _ EL). cbn [rbind].
  destruct Hk as [<-|[<-|[<-|[]]]]; reflexivity.
Qed.



(** ** [labels] bound to null *)

Lemma dict_lookup_del_eq k d : dict_lookup k (dict_del k d) = None.
Proof.
  induction d as [|[k' v] r IH]; simpl; [reflexivity|].
  destruct (pystr_eqb k k') eqn:E; [exact IH|]. simpl. rewrite E. exact IH.
Qed.

Lemma dict_lookup_del_ne k k' d :
  k <> k' -> dict_lookup k (dict_del k' d) = dict_lookup k d.
Proof.
  intros Hne. induction d as [|[k2 v] r IH]; simpl; [reflexivity|].
  destruct (pystr_eqb k' k2) eqn:E.
  - apply pystr_eqb_eq in E. subst k2.
    destruct (pystr_eqb k k') eqn:E'; [apply pystr_eqb_eq in E'; contradiction | exact IH].
  - simpl. rewrite IH. reflexivity.
Qed.

Lemma voice_row_del_null_labels kvs :
  dict_lookup (py "labels") kvs = Some JNull ->
  voice_row (JObj kvs) = voice_row (JObj (dict_del (py "labels") kvs)).
Proof.
  intros H.
  rewrite (voice_row_labels kvs [] (labels_of_false _ _ H eq_refl)).
  rewrite (voice_row_labels (dict_del (py "labels") kvs) []
             (labels_of_absent _ (dict_lookup_del_eq _ _))).
  rewrite !dict_lookup_del_ne by discriminate. reflexivity.
Qed.

Lemma for_each_ext {A} (l : list A) (f g : A -> M unit) st :
  (forall x st', f x st' = g x st') -> for_each l f st = for_each l g st.
Proof.
  intros H. revert st. induction l as [|x l IH]; intros st; simpl; [reflexivity|].
  unfold bind. rewrite H. destruct (g x st) as [[[]|e] st']; [apply IH | reflexivity].
Qed.

Lemma for_each_app {A} (l1 l2 : list A) (f : A -> M unit) st :
  for_each (l1 ++ l2) f st = (for_each l1 f ;; for_each l2 f) st.
Proof.
  revert st. induction l1 as [|x l IH]; intros st; simpl; [reflexivity|].
  unfold bind. destruct (f x st) as [[[]|e] st']; [|reflexivity].
  rewrite IH. reflexivity.
Qed.

(** C9. A record whose [labels] is null is exported exactly like the
    same record without [labels]: the same row, no exception, empty
    [gender], [age] and [accent] columns, and the same run of
    [export_to_csv] wherever the record stands among the voices. *)
Theorem voice_row_null_labels kvs :
  dict_lookup (py "labels") kvs = Some JNull ->
  voice_row (JObj kvs) = voice_row (JObj (dict_del (py "labels") kvs))
  /\ (exists row, voice_row (JObj kvs) = Ret row)
  /\ (forall k, In k [py "gender"; py "age"; py "accent"] ->
        column k (JObj kvs) = Ret [])
  /\ (forall before after st,
        export_to_csv
          (JObj [(py "voices", JArr (before ++ JObj kvs :: after))]) st
        = export_to_csv
            (JObj [(py "voices",
                    JArr (before ++ JObj (dict_del (py "labels") kvs) :: after))]) st).
Proof.
  intros H. pose proof (voice_row_del_null_labels kvs H) as Hrow.
  pose proof (labels_of_false _ _ H eq_refl) as EL.
  split; [exact Hrow|].
  split; [eexists; apply (voice_row_labels _ _ EL)|].
  split; [intros k Hk; rewrite (column_label _ _ _ EL Hk); reflexivity|].
  intros before after st. rewrite !export_to_csv_unfold. cbv zeta.
  change (dict_lookup (py "voices") [(py "voices", ?v)]) with (Some v).
  cbn [default from_option id py_iter py_len].
  rewrite !length_app. cbn [length].
  rewrite !for_each_app. cbn [for_each]. unfold bind.
  destruct (for_each before _ _) as [[[]|e] st1]; [|reflexivity].
  assert (Hw : write_voice (py "voices.csv") (JObj kvs) st1
               = write_voice (py "voices.csv") (JObj (dict_del (py "labels") kvs)) st1).
  { rewrite !write_voice_fields. unfold voice_fields. rewrite Hrow. reflexivity. }
  rewrite Hw. reflexivity.
Qed.

Lemma voice_row_null_labels_witness :
  column (py "gender") (JObj [(py "name", JStr (py "Ada")); (py "labels", JNull)]) = Ret [].
Proof.
  destruct (voice_row_null_labels [(py "name", JStr (py "Ada")); (py "labels", JNull)])
    as (_ & _ & Hcol & _); [reflexivity|].
  apply Hcol. left. reflexivity.
Defined.

(** ** The text of the encoder *)

Lemma scalar_text_encode a level v t :
  scalar_text a v = Some t -> encode_text a level v = t /\ iterencode a level v = [t].
Proof.
  destruct v as [| [|] | z | s | l | l]; simpl; intros [= <-]; auto.
Qed.

Lemma join_cons sep p q r : join sep (p :: q :: r) = p ++ sep ++ join sep (q :: r).
Proof. reflexivity. Qed.

Lemma concat_iterencode_list a enc (T : json -> pystr) sep buf x r :
  Forall (fun v => concat (enc v) = T v) (x :: r) ->
  Forall (fun v => forall t, scalar_text a v = Some t -> T v = t) (x :: r) ->
  concat (iterencode_list a enc sep buf (x :: r)) = buf ++ join sep (List.map T (x :: r)).
Proof.
  revert buf x. induction r as [|y r IH]; intros buf x He Hs.
  - inversion He as [|? ? Hx _]; inversion Hs as [|? ? Hsx _]; subst.
    cbn [iterencode_list List.map join]. rewrite app_nil_r.
    destruct (scalar_text a x) as [t|] eqn:E.
    + rewrite (Hsx t eq_refl). simpl. by rewrite app_nil_r.
    + simpl. by rewrite Hx.
  - inversion He as [|? ? Hx He']; inversion Hs as [|? ? Hsx Hs']; subst.
    change (iterencode_list a enc sep buf (x :: y :: r))
      with (match scalar_text a x with
            | Some t => [buf ++ t]
            | None => buf :: enc x
            end ++ iterencode_list a enc sep sep (y :: r)).
    rewrite concat_app, (IH sep y He' Hs').
    cbn [List.map]. rewrite join_cons. cbn [List.map].
    destruct (scalar_text a x) as [t|] eqn:E.
    + rewrite (Hsx t eq_refl). simpl. rewrite app_nil_r, <- app_assoc. reflexivity.
    + simpl. rewrite Hx, <- app_assoc. reflexivity.
Qed.

Lemma concat_iterencode_dict a enc (T : json -> pystr) sep first kv r :
  Forall (fun kv => concat (enc (snd kv)) = T (snd kv)) (kv :: r) ->
  Forall (fun kv => forall t, scalar_text a (snd kv) = Some t -> T (snd kv) = t) (kv :: r) ->
  concat (iterencode_dict a enc sep first (kv :: r))
  = (if first then [] else sep)
    ++ join sep (List.map (fun kv => encode_basestring a (fst kv) ++ py ": " ++ T (snd kv))
                   (kv :: r)).
Proof.
  revert first kv. induction r as [|kv' r IH]; intros first [k v] He Hs.
  - inversion He as [|? ? Hx _]; inversion Hs as [|? ? Hsx _]; subst. cbn [fst snd] in *.
    change (iterencode_dict a enc sep first [(k, v)])
      with ((if first then [] else [sep])
            ++ [encode_basestring a k; py ": "]
            ++ match scalar_text a v with Some t => [t] | None => enc v end
            ++ []).
    rewrite !concat_app.
    match goal with
    | |- context [concat ?X] =>
        match X with context [scalar_text] => assert (Ev : concat X = T v) end
    end.
    { destruct (scalar_text a v) as [t|] eqn:E; [|exact Hx].
      rewrite (Hsx t eq_refl). simpl. by rewrite app_nil_r. }
    rewrite Ev. cbn [List.map join fst snd].
    destruct first; simpl; rewrite ?app_nil_r, <- ?app_assoc; reflexivity.
  - inversion He as [|? ? Hx He']; inversion Hs as [|? ? Hsx Hs']; subst. cbn [fst snd] in *.
    change (iterencode_dict a enc sep first ((k, v) :: kv' :: r))
      with ((if first then [] else [sep])
            ++ [encode_basestring a k; py ": "]
            ++ match scalar_text a v with Some t => [t] | None => enc v end
            ++ iterencode_dict a enc sep false (kv' :: r)).
    rewrite !concat_app, (IH false kv' He' Hs').
    match goal with
    | |- context [concat ?X] =>
        match X with context [scalar_text] => assert (Ev : concat X = T v) end
    end.
    { destruct (scalar_text a v) as [t|] eqn:E; [|exact Hx].
      rewrite (Hsx t eq_refl). simpl. by rewrite app_nil_r. }
    rewrite Ev. cbn [List.map]. rewrite join_cons. cbn [fst snd].
    destruct first; simpl; rewrite ?app_nil_r, <- ?app_assoc; reflexivity.
Qed.

(** The chunks of the encoder, put together, are [encode_text]. *)
Lemma concat_iterencode a v : forall level,
  concat (iterencode a level v) = encode_text a level v.
Proof.
  induction v as [| b | z | s | l IH | l IH] using json_ind; intros level;
    try (simpl; rewrite ?app_nil_r; reflexivity).
  - destruct b; simpl; reflexivity.
  - destruct l as [|x r]; [reflexivity|].
    cbn [iterencode encode_text]. rewrite concat_app.
    rewrite (concat_iterencode_list a _ (encode_text a (S level))).
    + cbn [concat]. rewrite ?app_nil_r, <- ?app_assoc. reflexivity.
    + eapply Forall_impl; [exact IH|]. intros v Hv. apply Hv.
    + apply Forall_forall. intros v _ t Ht. by apply scalar_text_encode.
  - destruct l as [|kv r]; [reflexivity|].
    cbn [iterencode encode_text]. rewrite !concat_app.
    rewrite (concat_iterencode_dict a _ (encode_text a (S level))).
    + cbn [concat]. rewrite ?app_nil_r, <- ?app_assoc. reflexivity.
    + eapply Forall_impl; [exact IH|]. intros v Hv. apply Hv.
    + apply Forall_forall. intros v _ t Ht. by apply scalar_text_encode.
Qed.

Lemma json_dumps_text a v : json_dumps a v = encode_text a 0 v.
Proof. apply concat_iterencode. Qed.

(** *** What can be encoded *)

Lemma not_surrogate_small c : (c < 55296)%N -> is_surrogate c = false.
Proof.
  intros H. unfold is_surrogate. apply andb_false_iff. left. apply N.leb_gt. exact H.
Qed.

Lemma hex_digit_small n : (n < 16)%N -> (hex_digit n < 128)%N.
Proof. intros H. unfold hex_digit. destruct (n <? 10)%N; lia. Qed.

Lemma encodable_hex4 n : encodable (hex4 n) = true.
Proof.
  unfold hex4, encodable. cbn [forallb].
  rewrite !not_surrogate_small; [reflexivity| | | |];
    (eapply N.lt_trans; [apply hex_digit_small; apply N.mod_lt; discriminate | reflexivity]).
Qed.

Lemma encodable_u_escape n : encodable (u_escape n) = true.
Proof. unfold u_escape. change (encodable (py "\u" ++ hex4 n) = true).
  rewrite encodable_app, encodable_hex4. reflexivity. Qed.

Lemma encodable_escape_char c :
  is_surrogate c = false -> encodable (escape_char false c) = true.
Proof.
  intros H. unfold escape_char. cbn [andb].
  repeat match goal with
         | |- context [if ?b then _ else _] => destruct b; try reflexivity
         end; try apply encodable_u_escape.
  unfold encodable. cbn [forallb]. rewrite H. reflexivity.
Qed.

Lemma encodable_encode_basestring s :
  encodable s = true -> encodable (encode_basestring false s) = true.
Proof.
  intros H. unfold encode_basestring. change (34%N :: ?x) with ([34%N] ++ x).
  rewrite !encodable_app. simpl. rewrite andb_true_r.
  induction s as [|c r IH]; [reflexivity|].
  cbn [flat_map encodable forallb] in *. apply andb_true_iff in H as [Hc Hr].
  fold (encodable r) in Hr.
  change (encodable (escape_char false c ++ flat_map (escape_char false) r) = true).
  rewrite encodable_app, IH, encodable_escape_char; auto.
  by apply negb_true_iff.
Qed.

Lemma encodable_repeat_space n : encodable (repeat 32%N n) = true.
Proof. induction n; simpl; auto. Qed.

Lemma encodable_newline_indent level : encodable (newline_indent level) = true.
Proof. unfold newline_indent. simpl encodable. apply encodable_repeat_space. Qed.

(** A value free of surrogates has a text that can be encoded. *)
Lemma encodable_encode_text v : forall level,
  json_encodable v = true -> encodable (encode_text false level v) = true.
Proof.
  induction v as [| b | z | s | l IH | l IH] using json_ind; intros level H.
  - reflexivity.
  - destruct b; reflexivity.
  - apply encodable_int_repr.
  - by apply encodable_encode_basestring.
  - destruct l as [|x r]; [reflexivity|].
    cbn [encode_text]. rewrite !encodable_app, !encodable_newline_indent.
    rewrite encodable_join; [reflexivity| |].
    + rewrite encodable_app, encodable_newline_indent. reflexivity.
    + cbn [json_encodable] in H. rewrite forallb_forall in *.
      intros t Ht. apply in_map_iff in Ht as (v & <- & Hv).
      rewrite Forall_forall in IH. apply IH; [by apply list_elem_of_In|]. by apply H.
  - destruct l as [|kv r]; [reflexivity|].
    cbn [encode_text]. rewrite !encodable_app, !encodable_newline_indent.
    rewrite encodable_join; [reflexivity| |].
    + rewrite encodable_app, encodable_newline_indent. reflexivity.
    + cbn [json_encodable] in H. rewrite forallb_forall in *.
      intros t Ht. apply in_map_iff in Ht as ([k v] & <- & Hv).
      specialize (H _ Hv). cbn [fst snd] in *. apply andb_true_iff in H as [Hk Hv'].
      rewrite !encodable_app, encodable_encode_basestring by exact Hk.
      rewrite Forall_forall in IH.
      rewrite (IH (k, v)); [reflexivity | by apply list_elem_of_In | exact Hv'].
Qed.

Lemma encodable_json_dumps v :
  json_encodable v = true -> encodable (json_dumps false v) = true.
Proof. intros H. rewrite json_dumps_text. by apply encodable_encode_text. Qed.

(** ** Decoding what the encoder wrote *)

(** *** Whitespace *)

Lemma skip_ws_spaces n s : skip_ws (repeat 32%N n ++ s) = skip_ws s.
Proof. induction n; simpl; auto. Qed.

Lemma skip_ws_newline_indent level s : skip_ws (newline_indent level ++ s) = skip_ws s.
Proof. unfold newline_indent. simpl. apply skip_ws_spaces. Qed.

Lemma skip_ws_head c s : is_ws c = false -> skip_ws (c :: s) = c :: s.
Proof. intros H. simpl. rewrite H. reflexivity. Qed.

(** *** Strings *)

Lemma hex_val_hex_digit d : (d < 16)%N -> hex_val (hex_digit d) = Some d.
Proof.
  intros H. unfold hex_digit, hex_val.
  destruct (N.ltb_spec d 10).
  - replace ((48 <=? 48 + d) && (48 + d <=? 57))%N with true
      by (symmetry; apply andb_true_iff; split; apply N.leb_le; lia).
    f_equal. lia.
  - replace ((48 <=? 87 + d) && (87 + d <=? 57))%N with false
      by (symmetry; apply andb_false_iff; right; apply N.leb_gt; lia).
    replace ((97 <=? 87 + d) && (87 + d <=? 102))%N with true
      by (symmetry; apply andb_true_iff; split; apply N.leb_le; lia).
    f_equal. lia.
Qed.

Lemma hex4_value c :
  (c < 65536)%N ->
  ((c / 4096) mod 16 * 4096 + (c / 256) mod 16 * 256 + (c / 16) mod 16 * 16 + c mod 16 = c)%N.
Proof.
  intros H. apply N2Z.inj.
  rewrite !N2Z.inj_add, !N2Z.inj_mul, !N2Z.inj_mod, !N2Z.inj_div.
  assert (Hz : 0 <= Z.of_N c < 65536) by lia.
  change (Z.of_N 4096) with 4096. change (Z.of_N 256) with 256.
  change (Z.of_N 16) with 16.
  generalize dependent (Z.of_N c). clear. intros z Hz.
  Z.div_mod_to_equations. lia.
Qed.

Lemma decode_hex4 c r : (c < 65536)%N -> decode_uXXXX (hex4 c ++ r) = Some (c, r).
Proof.
  intros H. unfold hex4, decode_uXXXX. cbn [app].
  rewrite !hex_val_hex_digit by (apply N.mod_lt; discriminate).
  rewrite hex4_value by exact H. reflexivity.
Qed.

Lemma scanstring_S fuel c r :
  scanstring (S fuel) (c :: r)
  = if (c =? 34)%N then Some ([], r)
    else if (c =? 92)%N then
      match r with
      | [] => None
      | esc :: r' =>
          if (esc =? 117)%N then
            match decode_uXXXX r' with
            | None => None
            | Some (uni, r2) =>
                let plain :=
                  match scanstring fuel r2 with
                  | Some (t, r3) => Some (uni :: t, r3)
                  | None => None
                  end in
                if ((55296 <=? uni) && (uni <=? 56319))%N then
                  match strip_prefix (py "\u") r2 with
                  | Some r3 =>
                      match decode_uXXXX r3 with
                      | None => None
                      | Some (uni2, r4) =>
                          if ((56320 <=? uni2) && (uni2 <=? 57343))%N then
                            match scanstring fuel r4 with
                            | Some (t, r5) =>
                                Some ((65536 + N.lor (N.shiftl (uni - 55296) 10)
                                                 (uni2 - 56320))%N :: t, r5)
                            | None => None
                            end
                          else plain
                      end
                  | None => plain
                  end
                else plain
            end
          else
            match backslash esc with
            | Some ch =>
                match scanstring fuel r' with
                | Some (t, r3) => Some (ch :: t, r3)
                | None => None
                end
            | None => None
            end
      end
    else if (c <? 32)%N then None
    else
      match scanstring fuel r with
      | Some (t, r3) => Some (c :: t, r3)
      | None => None
      end.
Proof. reflexivity. Qed.

(** One escaped character is read back as the character. *)
Lemma scanstring_escape_char fuel c s t rest :
  scanstring fuel s = Some (t, rest) ->
  scanstring (S fuel) (escape_char false c ++ s) = Some (c :: t, rest).
Proof.
  intros IH. unfold escape_char. cbn [andb].
  destruct (N.eqb_spec c 92) as [->|H92].
  { change (py "\\" ++ s) with (92%N :: 92%N :: s). rewrite scanstring_S.
    cbn -[scanstring]. rewrite IH. reflexivity. }
  destruct (N.eqb_spec c 34) as [->|H34].
  { change ((92%N :: [34%N]) ++ s) with (92%N :: 34%N :: s). rewrite scanstring_S.
    cbn -[scanstring]. rewrite IH. reflexivity. }
  destruct (N.eqb_spec c 8) as [->|H8].
  { change (py "\b" ++ s) with (92%N :: 98%N :: s). rewrite scanstring_S.
    cbn -[scanstring]. rewrite IH. reflexivity. }
  destruct (N.eqb_spec c 12) as [->|H12].
  { change (py "\f" ++ s) with (92%N :: 102%N :: s). rewrite scanstring_S.
    cbn -[scanstring]. rewrite IH. reflexivity. }
  destruct (N.eqb_spec c 10) as [->|H10].
  { change (py "\n" ++ s) with (92%N :: 110%N :: s). rewrite scanstring_S.
    cbn -[scanstring]. rewrite IH. reflexivity. }
  destruct (N.eqb_spec c 13) as [->|H13].
  { change (py "\r" ++ s) with (92%N :: 114%N :: s). rewrite scanstring_S.
    cbn -[scanstring]. rewrite IH. reflexivity. }
  destruct (N.eqb_spec c 9) as [->|H9].
  { change (py "\t" ++ s) with (92%N :: 116%N :: s). rewrite scanstring_S.
    cbn -[scanstring]. rewrite IH. reflexivity. }
  destruct (N.ltb_spec c 32) as [Hlt|Hge].
  { unfold u_escape. change ((92%N :: 117%N :: hex4 c) ++ s) with (92%N :: 117%N :: hex4 c ++ s).
    rewrite scanstring_S. cbn -[scanstring decode_uXXXX hex4 N.leb].
    rewrite decode_hex4 by lia. cbv zeta. rewrite IH.
    replace (55296 <=? c)%N with false by (symmetry; apply N.leb_gt; lia).
    reflexivity. }
  change ([c] ++ s) with (c :: s). rewrite scanstring_S.
  replace (c =? 34)%N with false by (symmetry; by apply N.eqb_neq).
  replace (c =? 92)%N with false by (symmetry; by apply N.eqb_neq).
  replace (c <? 32)%N with false by (symmetry; by apply N.ltb_ge).
  rewrite IH. reflexivity.
Qed.

Lemma scanstring_encoded s : forall fuel rest,
  (length s < fuel)%nat ->
  scanstring fuel (flat_map (escape_char false) s ++ 34%N :: rest) = Some (s, rest).
Proof.
  induction s as [|c s IH]; intros fuel rest Hf.
  - destruct fuel; [simpl in Hf; lia|]. reflexivity.
  - destruct fuel; [simpl in Hf; lia|].
    cbn [flat_map]. rewrite <- app_assoc.
    apply scanstring_escape_char. apply IH. simpl in Hf. lia.
Qed.

Lemma escape_char_nonempty a c : (1 <= length (escape_char a c))%nat.
Proof.
  unfold escape_char.
  repeat match goal with
         | |- context [if ?b then _ else _] => destruct b
         end;
    match goal with |- (1 <= length ?l)%nat =>
      let n := eval vm_compute in (length l) in change (1 <= n)%nat end; lia.
Qed.

Lemma length_flat_map_escape a s : (length s <= length (flat_map (escape_char a) s))%nat.
Proof.
  induction s as [|c s IH]; simpl; [lia|].
  rewrite length_app. pose proof (escape_char_nonempty a c). lia.
Qed.

(** [scanstring] reads an encoded string back, whatever follows. *)
Lemma py_scanstring_encoded s rest :
  py_scanstring (flat_map (escape_char false) s ++ 34%N :: rest) = Some (s, rest).
Proof.
  unfold py_scanstring. apply scanstring_encoded.
  rewrite length_app. pose proof (length_flat_map_escape false s). simpl. lia.
Qed.

(** *** Integers *)

Lemma delimited_float_tail rest : delimited rest -> float_tail rest = false.
Proof. destruct rest as [|c r]; [reflexivity|]. intros [->| ->]; reflexivity. Qed.

Lemma delimited_span_digits rest : delimited rest -> span_digits rest = ([], rest).
Proof. destruct rest as [|c r]; [reflexivity|]. intros [->| ->]; reflexivity. Qed.

Lemma span_digits_uint d rest :
  delimited rest -> span_digits (uint_digits d ++ rest) = (uint_digits d, rest).
Proof.
  intros H. induction d; cbn [uint_digits app span_digits];
    [by apply delimited_span_digits | ..]; cbn [is_digit N.leb andb]; rewrite IHd; reflexivity.
Qed.

Lemma digits_uint_digits d : digits_uint (uint_digits d) = d.
Proof. induction d; cbn [uint_digits digits_uint]; rewrite ?IHd; reflexivity. Qed.

Lemma to_uint_nonzero_head p : nonzero_head (Pos.to_uint p).
Proof.
  assert (E : unorm (Pos.to_uint p) = Pos.to_uint p).
  { rewrite <- DecimalPos.Unsigned.to_of, DecimalPos.Unsigned.of_to. reflexivity. }
  pose proof (DecimalPos.Unsigned.to_uint_nonzero p) as Hnz.
  unfold unorm in E.
  destruct (nzhead (Pos.to_uint p)) eqn:En; rewrite <- E; try exact I.
  - exfalso. apply Hnz. rewrite <- E. reflexivity.
  - exfalso. exact (DecimalFacts.nzhead_nonzero _ _ En).
Qed.

Lemma uint_digits_nonzero_head d :
  nonzero_head d ->
  exists c ds, uint_digits d = c :: ds /\ is_digit c = true /\ (c =? 48)%N = false
               /\ (c =? 45)%N = false.
Proof.
  destruct d; simpl; intros H; try contradiction; eexists _, _; repeat split.
Qed.

(** An integer the encoder wrote is matched as that integer. *)
Lemma match_number_int_repr z rest :
  delimited rest -> match_number (int_repr z ++ rest) = IntLit z rest.
Proof.
  intros Hd. unfold int_repr.
  pose proof (DecimalZ.of_to z) as Hz.
  destruct z as [|p|p]; cbn [Z.to_int] in *.
  - change (match_number (48%N :: rest) = IntLit 0 rest). unfold match_number.
    cbn [N.eqb Pos.eqb]. rewrite delimited_float_tail by exact Hd. reflexivity.
  - destruct (uint_digits_nonzero_head _ (to_uint_nonzero_head p))
      as (c & ds & E & Hc & H48 & H45).
    pose proof (span_digits_uint (Pos.to_uint p) rest Hd) as Hs.
    pose proof (digits_uint_digits (Pos.to_uint p)) as Hu.
    rewrite E in *. cbn [app] in *. unfold match_number. rewrite H45, H48, Hc.
    cbn [span_digits] in Hs. rewrite Hc in Hs.
    destruct (span_digits (ds ++ rest)) as [ds' r'] eqn:Es. injection Hs as -> ->.
    rewrite delimited_float_tail by exact Hd. unfold parse_int. rewrite Hu, Hz.
    reflexivity.
  - destruct (uint_digits_nonzero_head _ (to_uint_nonzero_head p))
      as (c & ds & E & Hc & H48 & H45).
    pose proof (span_digits_uint (Pos.to_uint p) rest Hd) as Hs.
    pose proof (digits_uint_digits (Pos.to_uint p)) as Hu.
    rewrite E in *. cbn [app] in *. unfold match_number. cbn [N.eqb Pos.eqb].
    rewrite H48, Hc.
    cbn [span_digits] in Hs. rewrite Hc in Hs.
    destruct (span_digits (ds ++ rest)) as [ds' r'] eqn:Es. injection Hs as -> ->.
    rewrite delimited_float_tail by exact Hd. unfold parse_int. rewrite Hu, Hz.
    reflexivity.
Qed.

(** The first character of an integer is a digit or the minus sign. *)
Lemma int_repr_head z :
  exists c r, int_repr z = c :: r /\ (is_digit c = true \/ c = 45%N).
Proof.
  unfold int_repr. destruct z as [|p|p]; cbn [Z.to_int].
  - exists 48%N, []. auto.
  - destruct (uint_digits_nonzero_head _ (to_uint_nonzero_head p)) as (c & ds & E & Hc & _).
    exists c, ds. auto.
  - eexists _, _. split; [reflexivity | auto].
Qed.

(** *** Scalars *)

Lemma strip_prefix_app p s : strip_prefix p (p ++ s) = Some s.
Proof. induction p as [|c p IH]; simpl; [reflexivity|]. by rewrite N.eqb_refl. Qed.

Lemma strip_prefix_head p ps c r :
  (p =? c)%N = false -> strip_prefix (p :: ps) (c :: r) = None.
Proof. intros H. simpl. rewrite H. reflexivity. Qed.

Lemma scan_once_null fuel rest : scan_once (S fuel) (py "null" ++ rest) = Ret (JNull, rest).
Proof. reflexivity. Qed.

Lemma scan_once_true fuel rest : scan_once (S fuel) (py "true" ++ rest) = Ret (JBool true, rest).
Proof. reflexivity. Qed.

Lemma scan_once_false fuel rest :
  scan_once (S fuel) (py "false" ++ rest) = Ret (JBool false, rest).
Proof. reflexivity. Qed.

Lemma scan_once_string fuel s rest :
  scan_once (S fuel) (encode_basestring false s ++ rest) = Ret (JStr s, rest).
Proof.
  unfold encode_basestring. cbn [app scan_once N.eqb Pos.eqb].
  rewrite <- app_assoc. cbn [app]. rewrite py_scanstring_encoded. reflexivity.
Qed.

Lemma scan_once_int fuel z rest :
  delimited rest -> scan_once (S fuel) (int_repr z ++ rest) = Ret (JInt z, rest).
Proof.
  intros Hd. pose proof (match_number_int_repr z rest Hd) as Hm.
  destruct (int_repr_head z) as (c & r & E & Hc). rewrite E in *. cbn [app] in *.
  assert (H34 : (c =? 34)%N = false /\ (c =? 123)%N = false /\ (c =? 91)%N = false
                /\ (110 =? c)%N = false /\ (116 =? c)%N = false /\ (102 =? c)%N = false).
  { destruct Hc as [Hc| ->]; [|by repeat split].
    unfold is_digit in Hc. apply andb_true_iff in Hc as [H1 H2].
    apply N.leb_le in H1, H2.
    repeat split; apply N.eqb_neq; lia. }
  destruct H34 as (H1 & H2 & H3 & H4 & H5 & H6).
  cbn [scan_once]. rewrite H1, H2, H3.
  change (py "null") with (110%N :: py "ull"). change (py "true") with (116%N :: py "rue").
  change (py "false") with (102%N :: py "alse").
  rewrite !strip_prefix_head by assumption. rewrite Hm. reflexivity.
Qed.

(** *** Values *)

(** The first character of an encoded value is not whitespace and not a
    closing bracket. *)
Lemma encode_text_head a level v :
  exists c r, encode_text a level v = c :: r /\ is_ws c = false /\ (c =? 93)%N = false.
Proof.
  destruct v as [| [|] | z | s | l | l]; try (eexists _, _; repeat split; fail).
  - destruct (int_repr_head z) as (c & r & E & Hc). exists c, r. split; [exact E|].
    destruct Hc as [Hc| ->]; [|by split].
    unfold is_digit in Hc. apply andb_true_iff in Hc as [H1 H2]. apply N.leb_le in H1, H2.
    split; [unfold is_ws; rewrite !orb_false_iff; repeat split|]; apply N.eqb_neq; lia.
  - destruct l; eexists _, _; repeat split.
  - destruct l; eexists _, _; repeat split.
Qed.

Lemma skip_ws_encode_text a level v s :
  skip_ws (encode_text a level v ++ s) = encode_text a level v ++ s.
Proof.
  destruct (encode_text_head a level v) as (c & r & E & Hc & _).
  rewrite E. cbn [app]. by apply skip_ws_head.
Qed.

Lemma join_head sep (p : pystr) ps : exists t, join sep (p :: ps) = p ++ t.
Proof. destruct ps; [exists []; simpl; by rewrite app_nil_r | eexists; reflexivity]. Qed.

Lemma dict_set_fresh k v d :
  ~ In k (List.map fst d) -> dict_set k v d = d ++ [(k, v)].
Proof.
  induction d as [|[k' v'] d IH]; simpl; intros H; [reflexivity|].
  destruct (pystr_eqb k k') eqn:E.
  - apply pystr_eqb_eq in E. subst. tauto.
  - rewrite IH by tauto. reflexivity.
Qed.

Lemma dict_of_pairs_acc l : forall acc,
  List.NoDup (List.map fst (acc ++ l)) ->
  fold_left (fun d kv => dict_set (fst kv) (snd kv) d) l acc = acc ++ l.
Proof.
  induction l as [|[k v] l IH]; intros acc H; simpl; [by rewrite app_nil_r|].
  rewrite dict_set_fresh.
  - rewrite IH; rewrite <- app_assoc; [reflexivity | exact H].
  - rewrite List.map_app in H. simpl in H. apply List.NoDup_remove_2 in H.
    intros Hin. apply H. apply in_or_app. by left.
Qed.

(** A list of pairs without repeated keys is the dict it builds. *)
Lemma dict_of_pairs_nodup l : List.NoDup (List.map fst l) -> dict_of_pairs l = l.
Proof. intros H. unfold dict_of_pairs. by rewrite dict_of_pairs_acc. Qed.

Lemma delimited_newline_indent level s : delimited (newline_indent level ++ s).
Proof. simpl. auto. Qed.

Lemma delimited_comma s : delimited (py "," ++ s).
Proof. simpl. auto. Qed.



Lemma join_closing level closer p ps rest :
  join (py "," ++ newline_indent (S level)) (p :: ps)
  ++ newline_indent level ++ closer ++ rest
  = p ++ closing level closer ps rest.
Proof.
  destruct ps as [|q ps]; [reflexivity|].
  rewrite join_cons. unfold closing. rewrite <- !app_assoc. reflexivity.
Qed.

Lemma delimited_closing level closer parts rest : delimited (closing level closer parts rest).
Proof. destruct parts; simpl; auto. Qed.

Lemma encode_basestring_app s t :
  encode_basestring false s ++ t = 34%N :: flat_map (escape_char false) s ++ 34%N :: t.
Proof. unfold encode_basestring. cbn [app]. rewrite <- app_assoc. reflexivity. Qed.

Lemma pair_text_app level k v t :
  pair_text level (k, v) ++ t
  = 34%N :: flat_map (escape_char false) k
    ++ 34%N :: 58%N :: 32%N :: encode_text false level v ++ t.
Proof.
  unfold pair_text. cbn [fst snd]. rewrite <- !app_assoc, encode_basestring_app.
  reflexivity.
Qed.

Lemma array_loop_encoded level rest items :
  Forall decodes items ->
  forall fuel acc x,
    forallb wf_json items = true ->
    wf_json x = true -> decodes x ->
    (S (size x) + list_sum (List.map (fun x => S (size x)) items) <= fuel)%nat ->
    array_loop fuel acc
      (encode_text false (S level) x
       ++ closing level (py "]") (List.map (encode_text false (S level)) items) rest)
    = Ret (JArr (acc ++ x :: items), rest).
Proof.
  induction 1 as [|y r Hy Hr IH]; intros fuel acc x Hwf Hwx Hx Hfuel;
    (destruct fuel as [|fuel]; [lia|]);
    cbn [array_loop];
    (rewrite Hx; [|exact Hwx | lia | apply delimited_closing]).
  - unfold closing. cbn [List.map]. rewrite skip_ws_newline_indent. reflexivity.
  - unfold closing. cbn [List.map].
    change (py "," ++ ?s) with (44%N :: s). cbn [skip_ws is_ws N.eqb Pos.eqb orb].
    rewrite skip_ws_newline_indent, join_closing, skip_ws_encode_text.
    cbn [forallb] in Hwf. apply andb_true_iff in Hwf as [Hwy Hwr].
    etransitivity.
    { apply (IH fuel (acc ++ [x]) y Hwr Hwy Hy).
      unfold list_sum in *. cbn [List.map fold_right] in Hfuel. lia. }
    by rewrite <- app_assoc.
Qed.

Lemma object_loop_encoded level rest items :
  Forall (fun kv => decodes (snd kv)) items ->
  forall fuel acc k v,
    forallb (fun kv => wf_json (snd kv)) items = true ->
    wf_json v = true -> decodes v ->
    (S (size v) + list_sum (List.map (fun kv => S (size (snd kv))) items) <= fuel)%nat ->
    object_loop fuel acc
      (flat_map (escape_char false) k
       ++ 34%N :: 58%N :: 32%N :: encode_text false (S level) v
       ++ closing level (py "}") (List.map (pair_text (S level)) items) rest)
    = Ret (JObj (dict_of_pairs (acc ++ (k, v) :: items)), rest).
Proof.
  induction 1 as [|[k' v'] r Hv' Hr IH]; intros fuel acc k v Hwf Hwv Hv Hfuel;
    (destruct fuel as [|fuel]; [lia|]);
    cbn [object_loop]; rewrite py_scanstring_encoded;
    cbn [skip_ws is_ws N.eqb Pos.eqb orb]; rewrite skip_ws_encode_text;
    (rewrite Hv; [|exact Hwv | lia | apply delimited_closing]).
  - unfold closing. cbn [List.map]. rewrite skip_ws_newline_indent. reflexivity.
  - unfold closing. cbn [List.map].
    change (py "," ++ ?s) with (44%N :: s). cbn [skip_ws is_ws N.eqb Pos.eqb orb].
    rewrite skip_ws_newline_indent, join_closing, pair_text_app.
    cbn [skip_ws is_ws N.eqb Pos.eqb orb].
    cbn [forallb snd] in Hwf. apply andb_true_iff in Hwf as [Hwv' Hwr].
    cbn [List.map list_sum fold_right snd] in Hfuel. cbn [snd] in Hv'.
    etransitivity.
    { apply (IH fuel (acc ++ [(k, v)]) k' v' Hwr Hwv' Hv').
      unfold list_sum in *. lia. }
    by rewrite <- app_assoc.
Qed.

(** The decoder reads back the text of a well-formed value, whatever
    delimiter follows it. *)
Lemma scan_once_encoded v : decodes v.
Proof.
  induction v as [| b | z | s | l IH | l IH] using json_ind;
    intros fuel level rest Hwf Hfuel Hd;
    (destruct fuel as [|fuel]; [simpl in Hfuel; lia|]).
  - apply scan_once_null.
  - destruct b; [apply scan_once_true | apply scan_once_false].
  - by apply scan_once_int.
  - apply scan_once_string.
  - destruct l as [|x r]; [reflexivity|].
    cbn [encode_text]. rewrite <- !app_assoc.
    change (py "[" ++ ?s) with (91%N :: s). cbn [scan_once N.eqb Pos.eqb].
    rewrite skip_ws_newline_indent. cbn [List.map].
    rewrite join_closing, skip_ws_encode_text.
    destruct (encode_text_head false (S level) x) as (c & tl & Ec & Hc & H93).
    rewrite Ec. cbn [app]. rewrite H93.
    change (c :: tl ++ ?s) with ((c :: tl) ++ s). rewrite <- Ec.
    cbn [wf_json size forallb] in Hwf, Hfuel. apply andb_true_iff in Hwf as [Hwx Hwr].
    inversion IH as [|? ? Hx Hr]; subst.
    etransitivity;
      [apply (array_loop_encoded level rest r Hr fuel [] x Hwr Hwx Hx);
       unfold list_sum in *; cbn [List.map fold_right] in Hfuel; lia|].
    reflexivity.
  - destruct l as [|[k v] r]; [reflexivity|].
    cbn [encode_text]. rewrite <- !app_assoc.
    change (py "{" ++ ?s) with (123%N :: s). cbn [scan_once N.eqb Pos.eqb].
    rewrite skip_ws_newline_indent.
    cbn [wf_json size] in Hwf, Hfuel. apply andb_true_iff in Hwf as [Hnd Hwf].
    apply bool_decide_eq_true in Hnd.
    cbn [forallb snd] in Hwf. apply andb_true_iff in Hwf as [Hwv Hwr].
    inversion IH as [|? ? Hv Hr]; subst. cbn [snd] in Hv.
    change (List.map (fun kv => encode_basestring false (fst kv) ++ py ": "
                                ++ encode_text false (S level) (snd kv)) ((k, v) :: r))
      with (pair_text (S level) (k, v) :: List.map (pair_text (S level)) r).
    rewrite join_closing, pair_text_app. cbn [skip_ws is_ws N.eqb Pos.eqb orb].
    etransitivity;
      [apply (object_loop_encoded level rest r Hr fuel [] k v Hwr Hwv Hv);
       unfold list_sum in *; cbn [List.map fold_right snd] in Hfuel; lia|].
    cbn [app]. rewrite dict_of_pairs_nodup; [reflexivity|].
    by apply NoDup_ListNoDup.
Qed.

(** *** The fuel of [json_loads] *)

Lemma join_length_bound {A} (f : A -> nat) (g : A -> pystr) sep l :
  (1 <= length sep)%nat ->
  Forall (fun x => (f x <= length (g x))%nat) l ->
  (list_sum (List.map (fun x => S (f x)) l) <= length (join sep (List.map g l)) + 1)%nat.
Proof.
  intros Hsep. unfold list_sum.
  induction 1 as [|x r Hx Hr IH]; [simpl; lia|].
  destruct r as [|y r].
  - simpl. lia.
  - cbn [List.map] in *. rewrite join_cons, !length_app. cbn [fold_right] in *. lia.
Qed.

(** The text of a value is at least as long as the value is large. *)
Lemma size_le_length a v : forall level, (size v <= length (encode_text a level v))%nat.
Proof.
  induction v as [| b | z | s | l IH | l IH] using json_ind; intros level.
  - simpl. lia.
  - destruct b; simpl; lia.
  - destruct (int_repr_head z) as (c & r & E & _). simpl. rewrite E. simpl. lia.
  - simpl. lia.
  - destruct l as [|x r]; [simpl; lia|].
    cbn [size encode_text]. rewrite !length_app.
    pose proof (join_length_bound size (encode_text a (S level))
                  (py "," ++ newline_indent (S level)) (x :: r)) as H.
    assert (Hs : (1 <= length (py "," ++ newline_indent (S level)))%nat) by (simpl; lia).
    specialize (H Hs). 
    assert (Hn : (1 <= length (newline_indent (S level)))%nat) by (simpl; lia).
    assert (Hb : (1 <= length (py "]"))%nat) by (simpl; lia).
    assert (Ho : (1 <= length (py "["))%nat) by (simpl; lia).
    unfold pystr in *.
    assert (H' : Forall (fun x => (size x <= length (encode_text a (S level) x))%nat) (x :: r)).
    { eapply Forall_impl; [exact IH|]. intros v Hv. apply Hv. }
    specialize (H H'). lia.
  - destruct l as [|kv r]; [simpl; lia|].
    cbn [size encode_text]. rewrite !length_app.
    pose proof (join_length_bound (fun kv => size (snd kv))
                  (fun kv => encode_basestring a (fst kv) ++ py ": "
                             ++ encode_text a (S level) (snd kv))
                  (py "," ++ newline_indent (S level)) (kv :: r)) as H.
    assert (Hs : (1 <= length (py "," ++ newline_indent (S level)))%nat) by (simpl; lia).
    specialize (H Hs).
    assert (Hn : (1 <= length (newline_indent (S level)))%nat) by (simpl; lia).
    assert (Hb : (1 <= length (py "}"))%nat) by (simpl; lia).
    assert (Ho : (1 <= length (py "{"))%nat) by (simpl; lia).
    unfold pystr in *.
    assert (H' : Forall (fun kv : list N * json =>
                           (size (snd kv)
                            <= length (encode_basestring a (fst kv) ++ py ": "
                                       ++ encode_text a (S level) (snd kv)))%nat) (kv :: r)).
    { eapply Forall_impl; [exact IH|]. intros [k v] Hv. cbn [fst snd] in *.
      rewrite !length_app. specialize (Hv (S level)). lia. }
    specialize (H H'). lia.
Qed.

(** ** The JSON round trip *)

(** Decoding the text of a well-formed value gives the value back. *)
Lemma json_loads_dumps v : wf_json v = true -> json_loads (json_dumps false v) = Ret v.
Proof.
  intros Hwf. rewrite json_dumps_text. unfold json_loads.
  pose proof (skip_ws_encode_text false 0 v []) as Hs. rewrite app_nil_r in Hs.
  rewrite Hs.
  pose proof (scan_once_encoded v (2 * length (encode_text false 0 v) + 2)%nat 0%nat [] Hwf) as H.
  rewrite app_nil_r in H. rewrite H; [reflexivity | | exact I].
  pose proof (size_le_length false v 0). lia.
Qed.

(** ** What the decoder builds is well formed *)

Lemma dict_set_keys_in x k v d :
  In x (List.map fst (dict_set k v d)) -> x = k \/ In x (List.map fst d).
Proof.
  induction d as [|[k' v'] r IH]; simpl; [intros [H|[]]; auto|].
  destruct (pystr_eqb k k'); simpl; intros [H|H]; auto.
  apply IH in H as [H|H]; auto.
Qed.

Lemma dict_set_nodup k v d :
  List.NoDup (List.map fst d) -> List.NoDup (List.map fst (dict_set k v d)).
Proof.
  induction d as [|[k' v'] r IH]; simpl; intros H.
  - constructor; [tauto | constructor].
  - inversion H as [|? ? Hnin Hr]; subst.
    destruct (pystr_eqb k k') eqn:E; simpl; [exact H|].
    constructor; [|by apply IH].
    intros Hin. apply dict_set_keys_in in Hin as [->|Hin]; [|contradiction].
    rewrite pystr_eqb_refl in E. discriminate.
Qed.

Lemma dict_set_values k v d :
  wf_json v = true ->
  forallb (fun kv => wf_json (snd kv)) d = true ->
  forallb (fun kv => wf_json (snd kv)) (dict_set k v d) = true.
Proof.
  intros Hv. induction d as [|[k' v'] r IH]; simpl; intros H.
  - by rewrite Hv.
  - apply andb_true_iff in H as [H1 H2].
    destruct (pystr_eqb k k'); simpl; [by rewrite Hv | by rewrite H1, IH].
Qed.

Lemma dict_of_pairs_wf pairs :
  forallb (fun kv => wf_json (snd kv)) pairs = true ->
  wf_json (JObj (dict_of_pairs pairs)) = true.
Proof.
  intros H. unfold dict_of_pairs.
  assert (G : forall acc,
    List.NoDup (List.map fst acc) ->
    forallb (fun kv => wf_json (snd kv)) acc = true ->
    wf_json (JObj (fold_left (fun d kv => dict_set (fst kv) (snd kv) d) pairs acc)) = true).
  { induction pairs as [|[k v] r IH]; intros acc Hnd Hacc; simpl.
    - rewrite Hacc, andb_true_r. apply bool_decide_eq_true. by apply NoDup_ListNoDup.
    - simpl in H. apply andb_true_iff in H as [Hv Hr].
      apply IH; [exact Hr | by apply dict_set_nodup | by apply dict_set_values]. }
  apply G; [constructor | reflexivity].
Qed.

Lemma forallb_snoc {A} (f : A -> bool) l x :
  forallb f (l ++ [x]) = forallb f l && f x.
Proof. rewrite forallb_app. simpl. by rewrite andb_true_r. Qed.

Lemma decoder_wf fuel :
  (forall s v r, scan_once fuel s = Ret (v, r) -> wf_json v = true)
  /\ (forall pairs s v r,
        forallb (fun kv => wf_json (snd kv)) pairs = true ->
        object_loop fuel pairs s = Ret (v, r) -> wf_json v = true)
  /\ (forall values s v r,
        forallb wf_json values = true ->
        array_loop fuel values s = Ret (v, r) -> wf_json v = true).
Proof.
  induction fuel as [|fuel (IHs & IHo & IHa)]; [repeat split; intros; discriminate|].
  split; [|split].
  - intros s v r. cbn [scan_once]. intros H.
    repeat match type of H with
           | context [match ?x with _ => _ end] => destruct x eqn:?
           end; try discriminate; try (injection H as <- <-; reflexivity).
    + eapply IHo; [|exact H]. reflexivity.
    + eapply IHa; [|exact H]. reflexivity.
  - intros pairs s v r Hp. cbn [object_loop]. intros H.
    destruct (py_scanstring s) as [[key s1]|]; [|discriminate].
    destruct (skip_ws s1) as [|colon s2]; [discriminate|].
    destruct (colon =? 58)%N; [|discriminate].
    destruct (scan_once fuel (skip_ws s2)) as [[value s3]|e] eqn:Ev; [|discriminate].
    apply IHs in Ev.
    assert (Hp' : forallb (fun kv => wf_json (snd kv)) (pairs ++ [(key, value)]) = true).
    { rewrite forallb_snoc, Hp. exact Ev. }
    cbv zeta in H.
    destruct (skip_ws s3) as [|c r']; [discriminate|].
    destruct (c =? 125)%N.
    + injection H as <- <-. by apply dict_of_pairs_wf.
    + destruct (c =? 44)%N; [|discriminate].
      destruct (skip_ws r') as [|q r'']; [discriminate|].
      destruct (q =? 34)%N; [|discriminate].
      eapply IHo; [exact Hp' | exact H].
  - intros values s v r Hvs. cbn [array_loop]. intros H.
    destruct (scan_once fuel s) as [[value s1]|e] eqn:Ev; [|discriminate].
    apply IHs in Ev.
    assert (Hvs' : forallb wf_json (values ++ [value]) = true).
    { rewrite forallb_snoc, Hvs. exact Ev. }
    cbv zeta in H.
    destruct (skip_ws s1) as [|c r']; [discriminate|].
    destruct (c =? 93)%N.
    + injection H as <- <-. exact Hvs'.
    + destruct (c =? 44)%N; [|discriminate].
      eapply IHa; [exact Hvs' | exact H].
Qed.

(** Every value [json_loads] returns is well formed. *)
Lemma json_loads_wf s v : json_loads s = Ret v -> wf_json v = true.
Proof.
  unfold json_loads. intros H.
  destruct (scan_once _ _) as [[obj r]|e] eqn:E; [|discriminate].
  destruct (skip_ws r); [|discriminate]. injection H as <-.
  eapply (proj1 (decoder_wf _)). exact E.
Qed.




(** ** The run after a successful fetch *)

Lemma fetch_voices_ok net api_key st status reason body data :
  net (voices_request api_key) = HttpResponse status reason (Some body) ->
  (200 <=? status) && (status <? 300) = true ->
  json_loads body = Ret data ->
  fetch_voices net api_key st
  = (Ret data, mkState (stdout st) (files st) (sent st ++ [voices_request api_key])).
Proof.
  intros Hnet Hst Hj. unfold fetch_voices, try_except. fold (voices_request api_key).
  unfold bind at 1. unfold urlopen. rewrite Hnet, Hst.
  unfold bind, read_decode, ret, lift. rewrite Hj. reflexivity.
Qed.

Lemma status_2xx status : 200 <= status < 300 -> (200 <=? status) && (status <? 300) = true.
Proof. intros H. apply andb_true_iff. split; [apply Z.leb_le | apply Z.ltb_lt]; lia. Qed.

Lemma py_in_missing_key k kvs : dict_lookup k kvs = None -> py_in k (JObj kvs) = Ret false.
Proof. intros H. simpl. rewrite H. reflexivity. Qed.



(** C10 (amended). When the response decodes to a mapping whose [voices]
    is null (and whose strings hold no surrogate), the check passes,
    [voices.json] is written in full, and the CSV export opens
    [voices.csv], writes the header record and then raises an uncaught
    [TypeError] before any voice record: both files stay on disk and the
    exit status is 1. *)
Theorem main_voices_null (argv : list pystr) net st status reason body kvs :
  accepted_key argv ->
  net (voices_request (strip (nth 1 argv []))) = HttpResponse status reason (Some body) ->
  200 <= status < 300 ->
  json_loads body = Ret (JObj kvs) ->
  dict_lookup (py "voices") kvs = Some JNull ->
  json_encodable (JObj kvs) = true ->
  main argv net st
  = (Raise TypeError,
     mkState (stdout st
                ++ [py "Fetching voices from ElevenLabs...";
                    py "Wrote raw JSON to voices.json"])
       (<[py "voices.csv" := header_line]>
          (<[py "voices.json" := json_dumps false (JObj kvs)]> (files st)))
       (sent st ++ [voices_request (strip (nth 1 argv []))]))
  /\ exit_status (fst (main argv net st)) = Some 1.
Proof.
  intros Hkey Hnet Hst Hj Hv Henc.
  match goal with |- ?l = ?r /\ _ => assert (E0 : l = r) end.
  { rewrite main_with_key by assumption.
    unfold fetch_and_export. unfold bind at 1. cbn -[py fetch_voices bind app].
    unfold bind at 1.
    rewrite (fetch_voices_ok _ _ _ _ _ _ _ Hnet (status_2xx _ Hst) Hj).
    unfold bind at 1. cbn [lift py_in]. rewrite Hv. cbn [negb when].
    unfold bind at 1. cbn [ret]. unfold bind at 1.
    rewrite export_to_json_ok by (by apply encodable_json_dumps).
    rewrite export_to_csv_unfold, Hv. cbv zeta. cbn [default from_option id py_iter].
    cbn [stdout files sent]. rewrite <- !app_assoc. reflexivity. }
  rewrite E0. auto.
Qed.

Lemma main_voices_null_witness :
  exit_status
    (fst (main [py "export_elevenlabs_voices.py"; py "key"]
            (fun _ => HttpResponse 200 (py "OK")
                        (Some (json_dumps true (JObj [(py "voices", JNull)]))))
            (initial ∅)))
  = Some 1.
Proof.
  refine (proj2 (main_voices_null
                   [py "export_elevenlabs_voices.py"; py "key"]
                   (fun _ => HttpResponse 200 (py "OK")
                               (Some (json_dumps true (JObj [(py "voices", JNull)]))))
                   (initial ∅) 200 (py "OK")
                   (json_dumps true (JObj [(py "voices", JNull)]))
                   [(py "voices", JNull)] _ _ _ _ _ _)).
  - split; [simpl; lia | discriminate].
  - reflexivity.
  - lia.
  - reflexivity.
  - reflexivity.
  - reflexivity.
Defined.

(** C10, as stated, fails: by the time the export raises, [voices.csv]
    exists and holds a row, the header. *)
Lemma voices_null_header_written :
  fst (main [py "export_elevenlabs_voices.py"; py "key"]
         (fun _ => HttpResponse 200 (py "OK")
                     (Some (json_dumps true (JObj [(py "voices", JNull)]))))
         (initial ∅))
  = Raise TypeError
  /\ files (snd (main [py "export_elevenlabs_voices.py"; py "key"]
                   (fun _ => HttpResponse 200 (py "OK")
                               (Some (json_dumps true (JObj [(py "voices", JNull)]))))
                   (initial ∅))) !! py "voices.csv"
     = Some header_line.
Proof. split; vm_compute; reflexivity. Qed.

(** * Further properties of the program *)

(** ** What the decoder raises *)

Lemma decoder_raises fuel :
  (forall s e, scan_once fuel s = Raise e -> e = JSONDecodeError \/ e = NotModelled)
  /\ (forall pairs s e,
        object_loop fuel pairs s = Raise e -> e = JSONDecodeError \/ e = NotModelled)
  /\ (forall values s e,
        array_loop fuel values s = Raise e -> e = JSONDecodeError \/ e = NotModelled).
Proof.
  induction fuel as [|fuel (IHs & IHo & IHa)];
    [repeat split; intros; injection H as <-; auto|].
  split; [|split].
  - intros s e. cbn [scan_once]. intros H.
    repeat match type of H with
           | context [match ?x with _ => _ end] => destruct x eqn:?
           end; try discriminate; try (injection H as <-; auto; fail).
    + eapply IHo; exact H.
    + eapply IHa; exact H.
  - intros pairs s e. cbn [object_loop]. intros H.
    destruct (py_scanstring s) as [[key s1]|]; [|injection H as <-; auto].
    destruct (skip_ws s1) as [|colon s2]; [injection H as <-; auto|].
    destruct (colon =? 58)%N; [|injection H as <-; auto].
    destruct (scan_once fuel (skip_ws s2)) as [[value s3]|e'] eqn:Ev.
    + cbv zeta in H.
      destruct (skip_ws s3) as [|c r']; [injection H as <-; auto|].
      destruct (c =? 125)%N; [discriminate|].
      destruct (c =? 44)%N; [|injection H as <-; auto].
      destruct (skip_ws r') as [|q r'']; [injection H as <-; auto|].
      destruct (q =? 34)%N; [|injection H as <-; auto].
      eapply IHo; exact H.
    + injection H as <-. eapply IHs; exact Ev.
  - intros values s e. cbn [array_loop]. intros H.
    destruct (scan_once fuel s) as [[value s1]|e'] eqn:Ev.
    + cbv zeta in H.
      destruct (skip_ws s1) as [|c r']; [injection H as <-; auto|].
      destruct (c =? 93)%N; [discriminate|].
      destruct (c =? 44)%N; [|injection H as <-; auto].
      eapply IHa; exact H.
    + injection H as <-. eapply IHs; exact Ev.
Qed.

(** [json_loads] raises nothing but a decoding error (or stops on a
    float). *)
Lemma json_loads_raises s e :
  json_loads s = Raise e -> e = JSONDecodeError \/ e = NotModelled.
Proof.
  unfold json_loads. intros H.
  destruct (scan_once _ _) as [[obj r]|e'] eqn:E.
  - destruct (skip_ws r); [discriminate | injection H as <-; auto].
  - injection H as <-. eapply (proj1 (decoder_raises _)). exact E.
Qed.

(** ** The fetch, case by case *)

Lemma fetch_voices_connection_failure net api_key st reason :
  net (voices_request api_key) = ConnectionFailure reason ->
  fetch_voices net api_key st
  = (Raise (SystemExit 1),
     mkState (stdout st ++ [py "Connection error: " ++ reason]) (files st)
       (sent st ++ [voices_request api_key])).
Proof.
  intros Hnet. unfold fetch_voices, try_except. fold (voices_request api_key).
  unfold bind at 1. unfold urlopen. rewrite Hnet. reflexivity.
Qed.

Lemma fetch_voices_unreadable net api_key st status reason :
  net (voices_request api_key) = HttpResponse status reason None ->
  (200 <=? status) && (status <? 300) = true ->
  fetch_voices net api_key st
  = (Raise BodyReadError,
     mkState (stdout st) (files st) (sent st ++ [voices_request api_key])).
Proof.
  intros Hnet Hst. unfold fetch_voices, try_except. fold (voices_request api_key).
  unfold bind at 1. unfold urlopen. rewrite Hnet, Hst. reflexivity.
Qed.

Lemma fetch_voices_undecodable net api_key st status reason text e :
  net (voices_request api_key) = HttpResponse status reason (Some text) ->
  (200 <=? status) && (status <? 300) = true ->
  json_loads text = Raise e ->
  fetch_voices net api_key st
  = (Raise e, mkState (stdout st) (files st) (sent st ++ [voices_request api_key])).
Proof.
  intros Hnet Hst Hj. unfold fetch_voices, try_except. fold (voices_request api_key).
  unfold bind at 1. unfold urlopen. rewrite Hnet, Hst.
  unfold bind, read_decode, ret, lift. rewrite Hj.
  destruct (json_loads_raises _ _ Hj) as [-> | ->]; reflexivity.
Qed.

(** Whatever the network answers, the fetch returns the decoded body or
    raises; it touches no file and sends one request. *)
Lemma fetch_voices_frame net api_key st :
  files (snd (fetch_voices net api_key st)) = files st
  /\ (forall data, fst (fetch_voices net api_key st) = Ret data ->
        stdout (snd (fetch_voices net api_key st)) = stdout st
        /\ exists status reason text,
             net (voices_request api_key) = HttpResponse status reason (Some text)
             /\ 200 <= status < 300 /\ json_loads text = Ret data).
Proof.
  destruct (net (voices_request api_key)) as [status reason body | reason] eqn:Hnet.
  - destruct ((200 <=? status) && (status <? 300)) eqn:Hst.
    + destruct body as [text|].
      * destruct (json_loads text) as [data|e] eqn:Hj.
        -- rewrite (fetch_voices_ok _ _ _ _ _ _ _ Hnet Hst Hj). split; [reflexivity|].
           intros d [= <-]. split; [reflexivity|]. exists status, reason, text.
           apply andb_true_iff in Hst as [H1 H2]. apply Z.leb_le in H1.
           apply Z.ltb_lt in H2. auto.
        -- rewrite (fetch_voices_undecodable _ _ _ _ _ _ _ Hnet Hst Hj).
           split; [reflexivity | discriminate].
      * rewrite (fetch_voices_unreadable _ _ _ _ _ Hnet Hst).
        split; [reflexivity | discriminate].
    + rewrite (fetch_voices_http_error _ _ _ _ _ _ Hnet Hst).
      split; [reflexivity | discriminate].
  - rewrite (fetch_voices_connection_failure _ _ _ _ Hnet).
    split; [reflexivity | discriminate].
Qed.

(** ** The exports, case by case *)

Lemma written_chunks_all chunks :
  forallb encodable chunks = true -> written_chunks chunks = chunks.
Proof.
  induction chunks as [|c r IH]; simpl; [reflexivity|].
  intros H. apply andb_true_iff in H as [Hc Hr]. rewrite Hc, IH by exact Hr. reflexivity.
Qed.

(** The chunks written are a front part of the chunks, and a proper one
    when a chunk is refused. *)
Lemma written_chunks_prefix chunks :
  forallb encodable chunks = false ->
  exists bad rest,
    chunks = written_chunks chunks ++ bad :: rest /\ encodable bad = false.
Proof.
  induction chunks as [|c r IH]; simpl; [discriminate|].
  destruct (encodable c) eqn:Hc; simpl.
  - intros H. destruct (IH H) as (bad & rest & E & Hb).
    exists bad, rest. split; [by rewrite <- E | exact Hb].
  - intros _. exists c, r. auto.
Qed.

Lemma for_each_write_any f chunks st c :
  files st !! f = Some c ->
  for_each chunks (write f) st
  = (if forallb encodable chunks then Ret tt else Raise UnicodeEncodeError,
     mkState (stdout st) (<[f := c ++ concat (written_chunks chunks)]> (files st))
       (sent st)).
Proof.
  revert st c. induction chunks as [|chunk r IH]; intros st c Hf.
  - simpl. rewrite app_nil_r, insert_id by exact Hf. by destruct st.
  - cbn [for_each forallb written_chunks]. unfold bind.
    destruct (encodable chunk) eqn:He.
    + rewrite (write_ok _ _ _ _ Hf He).
      rewrite (IH _ (c ++ chunk)) by apply lookup_insert_eq.
      cbn [stdout files sent concat andb]. rewrite insert_insert_eq, app_assoc. reflexivity.
    + unfold write. rewrite He. cbn [andb concat].
      rewrite app_nil_r, insert_id by exact Hf. by destruct st.
Qed.

(** [export_to_json] on any value. *)
Lemma export_to_json_any data st :
  export_to_json data st
  = if forallb encodable (iterencode false 0 data) then
      (Ret tt,
       mkState (stdout st ++ [py "Wrote raw JSON to voices.json"])
         (<[py "voices.json" := json_dumps false data]> (files st)) (sent st))
    else
      (Raise UnicodeEncodeError,
       mkState (stdout st)
         (<[py "voices.json" := concat (written_chunks (iterencode false 0 data))]>
            (files st))
         (sent st)).
Proof.
  unfold export_to_json, json_dump.
  unfold bind at 1. unfold bind at 1. unfold open_w.
  rewrite (for_each_write_any _ _ _ []) by apply lookup_insert_eq.
  cbn [stdout files sent app]. rewrite insert_insert_eq.
  destruct (forallb encodable (iterencode false 0 data)) eqn:E; [|reflexivity].
  rewrite written_chunks_all by exact E. reflexivity.
Qed.

(** *** Which values can be written *)

Lemma encodable_join_inv sep parts :
  encodable (join sep parts) = true -> forallb encodable parts = true.
Proof.
  induction parts as [|p r IH]; [reflexivity|].
  destruct r as [|q r'].
  - simpl. intros ->. reflexivity.
  - rewrite join_cons, !encodable_app. intros H.
    apply andb_true_iff in H as [Hp H]. apply andb_true_iff in H as [_ H].
    cbn [forallb]. rewrite Hp. exact (IH H).
Qed.

Lemma escape_char_surrogate c : is_surrogate c = true -> escape_char false c = [c].
Proof.
  unfold is_surrogate. intros H. apply andb_true_iff in H as [H1 _]. apply N.leb_le in H1.
  unfold escape_char. cbn [andb].
  repeat match goal with
         | |- context [(c =? ?n)%N] =>
             replace (c =? n)%N with false by (symmetry; apply N.eqb_neq; lia)
         end.
  replace (c <? 32)%N with false by (symmetry; apply N.ltb_ge; lia). reflexivity.
Qed.

Lemma encodable_encode_basestring_inv s :
  encodable (encode_basestring false s) = true -> encodable s = true.
Proof.
  unfold encode_basestring. change (34%N :: ?x) with ([34%N] ++ x).
  rewrite !encodable_app. intros H.
  apply andb_true_iff in H as [_ H]. apply andb_true_iff in H as [H _].
  induction s as [|c r IH]; [reflexivity|].
  cbn [flat_map] in H. rewrite encodable_app in H. apply andb_true_iff in H as [Hc Hr].
  unfold encodable. cbn [forallb]. fold (encodable r). rewrite (IH Hr), andb_true_r.
  destruct (is_surrogate c) eqn:Es; [|reflexivity].
  rewrite (escape_char_surrogate _ Es) in Hc. unfold encodable in Hc. cbn [forallb] in Hc.
  rewrite Es in Hc. discriminate.
Qed.

Lemma encodable_encode_text_inv v : forall level,
  encodable (encode_text false level v) = true -> json_encodable v = true.
Proof.
  induction v as [| b | z | s | l IH | l IH] using json_ind; intros level H;
    try reflexivity.
  - by apply encodable_encode_basestring_inv.
  - destruct l as [|x r]; [reflexivity|].
    cbn [encode_text] in H. rewrite !encodable_app in H.
    apply andb_true_iff in H as [_ H]. apply andb_true_iff in H as [_ H].
    apply andb_true_iff in H as [H _]. apply encodable_join_inv in H.
    cbn [json_encodable]. rewrite forallb_forall in *. intros v Hv.
    rewrite Forall_forall in IH. apply (IH v (proj2 (list_elem_of_In _ _) Hv) (S level)).
    apply H. apply in_map_iff. eauto.
  - destruct l as [|kv r]; [reflexivity|].
    cbn [encode_text] in H. rewrite !encodable_app in H.
    apply andb_true_iff in H as [_ H]. apply andb_true_iff in H as [_ H].
    apply andb_true_iff in H as [H _]. apply encodable_join_inv in H.
    cbn [json_encodable]. rewrite forallb_forall in *. intros [k v] Hv.
    rewrite Forall_forall in IH.
    specialize (H (encode_basestring false k ++ py ": " ++ encode_text false (S level) v)).
    rewrite !encodable_app in H.
    assert (Hin : In (encode_basestring false k ++ py ": " ++ encode_text false (S level) v)
                    (List.map (fun kv => encode_basestring false (fst kv) ++ py ": "
                                 ++ encode_text false (S level) (snd kv)) (kv :: r))).
    { apply in_map_iff. exists (k, v). auto. }
    specialize (H Hin). apply andb_true_iff in H as [Hk H].
    apply andb_true_iff in H as [_ Hv'].
    cbn [fst snd]. rewrite (encodable_encode_basestring_inv _ Hk).
    exact (IH (k, v) (proj2 (list_elem_of_In _ _) Hv) (S level) Hv').
Qed.

(** The chunks of a value can all be encoded exactly when none of its
    strings holds a surrogate. *)
Lemma chunks_encodable data :
  forallb encodable (iterencode false 0 data) = json_encodable data.
Proof.
  rewrite <- encodable_concat. fold (json_dumps false data).
  destruct (json_encodable data) eqn:E.
  - by apply encodable_json_dumps.
  - destruct (encodable (json_dumps false data)) eqn:E'; [|reflexivity].
    rewrite json_dumps_text in E'. apply encodable_encode_text_inv in E'. congruence.
Qed.

(** The loop of [export_to_csv] on any voices. *)
Lemma write_voices_rows f vs : forall st c,
  files st !! f = Some c ->
  for_each vs (write_voice f) st
  = (match snd (csv_rows vs) with None => Ret tt | Some e => Raise e end,
     mkState (stdout st)
       (<[f := c ++ concat (List.map csv_line (fst (csv_rows vs)))]> (files st))
       (sent st)).
Proof.
  induction vs as [|v vs IH]; intros st c Hf.
  - simpl. rewrite app_nil_r, insert_id by exact Hf. by destruct st.
  - cbn [for_each csv_rows]. unfold bind. rewrite write_voice_fields.
    destruct (voice_fields v) as [fields|e].
    + destruct (encodable (csv_line fields)) eqn:He.
      * rewrite (write_ok _ _ _ _ Hf He).
        rewrite (IH _ (c ++ csv_line fields)) by apply lookup_insert_eq.
        destruct (csv_rows vs) as [rows stop].
        cbn [fst snd stdout files sent List.map concat].
        rewrite insert_insert_eq, app_assoc. reflexivity.
      * unfold write. rewrite He. cbn [fst snd List.map concat].
        rewrite app_nil_r, insert_id by exact Hf. by destruct st.
    + cbn [fst snd List.map concat]. rewrite app_nil_r, insert_id by exact Hf.
      by destruct st.
Qed.

Lemma py_iter_len v items :
  py_iter v = Ret items -> py_len v = Ret (Z.of_nat (length items)).
Proof.
  destruct v; simpl; intros [= <-]; rewrite ?length_map; reflexivity.
Qed.

(** [export_to_csv] on any mapping. *)
Lemma export_to_csv_any kvs st :
  export_to_csv (JObj kvs) st
  = match py_iter (voices_of kvs) with
    | Raise e =>
        (Raise e,
         mkState (stdout st) (<[py "voices.csv" := header_line]> (files st)) (sent st))
    | Ret items =>
        let written := header_line ++ concat (List.map csv_line (fst (csv_rows items))) in
        match snd (csv_rows items) with
        | Some e =>
            (Raise e,
             mkState (stdout st) (<[py "voices.csv" := written]> (files st)) (sent st))
        | None =>
            (Ret tt,
             mkState (stdout st ++ [csv_message (length items)])
               (<[py "voices.csv" := written]> (files st)) (sent st))
        end
    end.
Proof.
  rewrite export_to_csv_unfold. cbv zeta. fold (voices_of kvs).
  destruct (py_iter (voices_of kvs)) as [items|e] eqn:Ei; [|reflexivity].
  rewrite (write_voices_rows _ _ _ (csv_line fieldnames)) by apply lookup_insert_eq.
  cbn [stdout files sent]. rewrite insert_insert_eq.
  destruct (snd (csv_rows items)); [reflexivity|].
  unfold bind, lift. rewrite (py_iter_len _ _ Ei). reflexivity.
Qed.

(** [export_to_csv] on anything else. *)
Lemma export_to_csv_not_a_mapping data st :
  (forall kvs, data <> JObj kvs) -> export_to_csv data st = (Raise AttributeError, st).
Proof. intros H. destruct data; try reflexivity. by destruct (H pairs). Qed.

(** The rows written are the texts of the voices before the one that
    stops the loop. *)
Lemma csv_rows_fields vs :
  exists done,
    Forall2 (fun v row => voice_fields v = Ret row /\ encodable (csv_line row) = true)
      done (fst (csv_rows vs))
    /\ match snd (csv_rows vs) with
       | None => vs = done
       | Some e =>
           exists bad rest,
             vs = done ++ bad :: rest
             /\ (voice_fields bad = Raise e
                 \/ exists fields, voice_fields bad = Ret fields
                                   /\ encodable (csv_line fields) = false
                                   /\ e = UnicodeEncodeError)
       end.
Proof.
  induction vs as [|v vs (done & Hd & Hs)]; [exists []; split; [constructor | reflexivity]|].
  cbn [csv_rows]. destruct (voice_fields v) as [fields|e] eqn:Ev.
  - destruct (encodable (csv_line fields)) eqn:He.
    + destruct (csv_rows vs) as [rows stop]. cbn [fst snd] in *.
      exists (v :: done). split; [by constructor|].
      destruct stop as [e|].
      * destruct Hs as (bad & rest & -> & Hb). exists bad, rest. auto.
      * by subst.
    + exists []. split; [constructor|]. exists v, vs. split; [reflexivity|].
      right. eauto.
  - exists []. split; [constructor|]. exists v, vs. auto.
Qed.

Lemma csv_rows_good vs rows :
  Forall2 (fun v row => voice_fields v = Ret row /\ encodable (csv_line row) = true) vs rows ->
  forall bad rest,
    csv_rows (vs ++ bad :: rest)
    = (rows ++ fst (csv_rows (bad :: rest)), snd (csv_rows (bad :: rest))).
Proof.
  induction 1 as [|v row vs rows [Hv He] _ IH]; intros bad rest.
  - cbn [app]. by destruct (csv_rows (bad :: rest)).
  - change ((v :: vs) ++ bad :: rest) with (v :: (vs ++ bad :: rest)).
    cbn [csv_rows]. rewrite Hv, He, IH. reflexivity.
Qed.

(** ** The run, stage by stage *)

Lemma fetch_and_export_step net api_key st :
  fetch_and_export net api_key st
  = match fetch_voices net api_key
            (mkState (stdout st ++ [py "Fetching voices from ElevenLabs..."]) (files st)
               (sent st)) with
    | (Ret data, st') => validate_and_export data st'
    | (Raise e, st') => (Raise e, st')
    end.
Proof. reflexivity. Qed.

(** Once the body is decoded, the rest of the run is the validation and
    the two exports. *)
Lemma main_answered (argv : list pystr) net st data :
  accepted_key argv -> answers net (strip (nth 1 argv [])) data ->
  main argv net st = validate_and_export data (fetched st (strip (nth 1 argv []))).
Proof.
  intros Hkey (status & reason & text & Hnet & Hst & Hj).
  rewrite main_with_key, fetch_and_export_step by assumption.
  rewrite (fetch_voices_ok _ _ _ _ _ _ _ Hnet (status_2xx _ Hst) Hj). reflexivity.
Qed.

Lemma validate_and_export_passed data st :
  py_in (py "voices") data = Ret true ->
  validate_and_export data st
  = match export_to_json data st with
    | (Ret _, st') => export_to_csv data st'
    | (Raise e, st') => (Raise e, st')
    end.
Proof.
  intros H. unfold validate_and_export. unfold bind at 1. unfold lift at 1. rewrite H.
  reflexivity.
Qed.

Lemma validate_and_export_refused data st :
  py_in (py "voices") data = Ret false ->
  validate_and_export data st
  = (Raise (SystemExit 1),
     mkState (stdout st ++ [py "Warning: 'voices' key not in response. Raw response:";
                            json_dumps true data])
       (files st) (sent st)).
Proof.
  intros H. unfold validate_and_export. unfold bind at 1. unfold lift at 1. rewrite H.
  cbn -[py json_dumps app]. rewrite <- app_assoc. reflexivity.
Qed.

Lemma validate_and_export_raised data st e :
  py_in (py "voices") data = Raise e -> validate_and_export data st = (Raise e, st).
Proof.
  intros H. unfold validate_and_export. unfold bind at 1. unfold lift at 1. rewrite H.
  reflexivity.
Qed.

(** The membership test raises only on a value that is no container. *)
Lemma py_in_raises x data e : py_in x data = Raise e -> e = TypeError.
Proof. destruct data; simpl; congruence. Qed.

(** What building and formatting a row can raise. *)
Lemma voice_fields_raises v e :
  voice_fields v = Raise e -> e = AttributeError \/ e = NotModelled.
Proof.
  unfold voice_fields. destruct (voice_row v) as [row|e'] eqn:Er; cbn [rbind].
  - intros H. right.
    assert (G : forall l, map_result csv_field_text l = Raise e -> e = NotModelled).
    { induction l as [|x l IH]; cbn [map_result]; [discriminate|].
      destruct (csv_field_text x) as [t|e1] eqn:Ex.
      - destruct (map_result csv_field_text l); [discriminate|].
        intros [= <-]. by apply IH.
      - intros [= <-]. destruct x as [| [|] | | | |]; simpl in Ex; congruence. }
    exact (G _ H).
  - intros [= <-]. left.
    destruct v as [| | | | |kvs]; try (vm_compute in Er; congruence).
    destruct (labels_of kvs) as [| | | | |labels] eqn:El;
      try (rewrite voice_row_bad_labels in Er by (intros l; congruence); congruence).
    rewrite (voice_row_labels _ _ El) in Er. discriminate.
Qed.

Lemma csv_rows_raises vs e :
  snd (csv_rows vs) = Some e ->
  e = AttributeError \/ e = NotModelled \/ e = UnicodeEncodeError.
Proof.
  induction vs as [|v vs IH]; cbn [csv_rows]; [discriminate|].
  destruct (voice_fields v) as [fields|e'] eqn:Ev.
  - destruct (encodable (csv_line fields)).
    + destruct (csv_rows vs) as [rows stop]. exact IH.
    + intros [= <-]. auto.
  - intros [= <-]. destruct (voice_fields_raises _ _ Ev); auto.
Qed.

Lemma py_iter_raises v e : py_iter v = Raise e -> e = TypeError.
Proof. destruct v; simpl; congruence. Qed.

Lemma export_to_csv_outcome kvs st :
  export_to_csv (JObj kvs) st
  = (fst (fst (csv_outcome kvs)),
     mkState (stdout st ++ snd (fst (csv_outcome kvs)))
       (<[py "voices.csv" := snd (csv_outcome kvs)]> (files st)) (sent st)).
Proof.
  rewrite export_to_csv_any. unfold csv_outcome.
  destruct (py_iter (voices_of kvs)) as [items|e]; cbv zeta.
  - destruct (snd (csv_rows items)); cbn [fst snd]; rewrite ?app_nil_r; reflexivity.
  - cbn [fst snd]. rewrite app_nil_r. reflexivity.
Qed.

Lemma csv_outcome_raises kvs e :
  fst (fst (csv_outcome kvs)) = Raise e ->
  e = TypeError \/ e = AttributeError \/ e = NotModelled \/ e = UnicodeEncodeError.
Proof.
  unfold csv_outcome. destruct (py_iter (voices_of kvs)) as [items|e'] eqn:Ei; cbv zeta.
  - destruct (snd (csv_rows items)) as [e'|] eqn:Es; cbn [fst]; [|discriminate].
    intros [= <-]. destruct (csv_rows_raises _ _ Es) as [->|[->| ->]]; auto.
  - cbn [fst]. intros [= <-]. left. by apply (py_iter_raises _ _ Ei).
Qed.

(** A run without a usable credential. *)
Lemma main_without_key (argv : list pystr) net st :
  usage_error argv ->
  main argv net st
  = (Raise (SystemExit 1),
     mkState (stdout st
                ++ [if (length argv <? 2)%nat
                    then py "Usage: python export_elevenlabs_voices.py ELEVENLABS_API_KEY"
                    else py "Error: empty API key."])
       (files st) (sent st)).
Proof.
  intros [Hlen | [Hlen Hsp]].
  - replace (length argv <? 2)%nat with true by (symmetry; apply Nat.ltb_lt; lia).
    unfold main. destruct (Z.of_nat (length argv) <? 2) eqn:E; [reflexivity|].
    apply Z.ltb_ge in E. lia.
  - replace (length argv <? 2)%nat with false by (symmetry; apply Nat.ltb_ge; lia).
    unfold main. destruct (Z.of_nat (length argv) <? 2) eqn:E.
    + apply Z.ltb_lt in E. lia.
    + apply strip_nil_iff in Hsp. unfold bind at 1. simpl. rewrite Hsp.
      destruct st. reflexivity.
Qed.

(** A run whose fetch raises. *)
Lemma main_fetch_raised (argv : list pystr) net st e st' :
  accepted_key argv ->
  fetch_voices net (strip (nth 1 argv []))
    (mkState (stdout st ++ [py "Fetching voices from ElevenLabs..."]) (files st) (sent st))
  = (Raise e, st') ->
  main argv net st = (Raise e, st').
Proof.
  intros Hkey Hf. rewrite main_with_key, fetch_and_export_step, Hf by assumption.
  reflexivity.
Qed.

(** Either the run fails before the exports, touching no file, or the
    fetched structure passed the validation. *)
Lemma main_gate (argv : list pystr) net :
  (exists e out reqs,
     (e = NotModelled \/ exit_status (Raise e) = Some 1)
     /\ (forall r, In r reqs -> r = voices_request (strip (nth 1 argv [])))
     /\ (length reqs <= 1)%nat
     /\ forall st,
          main argv net st
          = (Raise e, mkState (stdout st ++ out) (files st) (sent st ++ reqs)))
  \/ (accepted_key argv
      /\ exists data,
           answers net (strip (nth 1 argv [])) data
           /\ py_in (py "voices") data = Ret true).
Proof.
  destruct (usage_error_or_accepted argv) as [Hu|Hkey].
  { left.
    exists (SystemExit 1),
      [if (length argv <? 2)%nat
       then py "Usage: python export_elevenlabs_voices.py ELEVENLABS_API_KEY"
       else py "Error: empty API key."], [].
    split; [by right|]. split; [intros r []|]. split; [simpl; lia|].
    intros st. rewrite (main_without_key _ _ _ Hu), app_nil_r. reflexivity. }
  destruct (net (voices_request (strip (nth 1 argv [])))) as [status reason body|reason]
    eqn:Hnet.
  2: { left. eexists _, _, [_]. split; [|split; [|split]]; [| |simpl; lia|].
       3: { intros st. apply (main_fetch_raised _ _ _ _ _ Hkey).
            rewrite (fetch_voices_connection_failure _ _ _ _ Hnet).
            cbn [stdout files sent]. rewrite <- app_assoc. reflexivity. }
       - by right.
       - intros r [<-|[]]. reflexivity. }
  destruct ((200 <=? status) && (status <? 300)) eqn:Hst.
  2: { left. eexists _, _, [_]. split; [|split; [|split]]; [| |simpl; lia|].
       3: { intros st. apply (main_fetch_raised _ _ _ _ _ Hkey).
            rewrite (fetch_voices_http_error _ _ _ _ _ _ Hnet Hst).
            cbn [stdout files sent]. rewrite <- !app_assoc. reflexivity. }
       - by right.
       - intros r [<-|[]]. reflexivity. }
  destruct body as [text|].
  2: { left. eexists _, [_], [_]. split; [|split; [|split]]; [| |simpl; lia|].
       3: { intros st. apply (main_fetch_raised _ _ _ _ _ Hkey).
            rewrite (fetch_voices_unreadable _ _ _ _ _ Hnet Hst). reflexivity. }
       - by right.
       - intros r [<-|[]]. reflexivity. }
  destruct (json_loads text) as [data|e] eqn:Hj.
  2: { left. exists e. eexists [_], [_]. split; [|split; [|split]]; [| |simpl; lia|].
       3: { intros st. apply (main_fetch_raised _ _ _ _ _ Hkey).
            rewrite (fetch_voices_undecodable _ _ _ _ _ _ _ Hnet Hst Hj). reflexivity. }
       - destruct (json_loads_raises _ _ Hj) as [-> | ->]; [by right | by left].
       - intros r [<-|[]]. reflexivity. }
  assert (Ha : answers net (strip (nth 1 argv [])) data).
  { exists status, reason, text. apply andb_true_iff in Hst as [H1 H2].
    apply Z.leb_le in H1. apply Z.ltb_lt in H2. auto. }
  destruct (py_in (py "voices") data) as [[|]|e] eqn:Hin.
  - right. eauto.
  - left. eexists _, _, [_]. split; [|split; [|split]]; [| |simpl; lia|].
    3: { intros st. rewrite (main_answered _ _ _ _ Hkey Ha).
         rewrite (validate_and_export_refused _ _ Hin). unfold fetched.
         cbn [stdout files sent]. rewrite <- app_assoc. reflexivity. }
    + by right.
    + intros r [<-|[]]. reflexivity.
  - left. exists e. eexists [_], [_]. split; [|split; [|split]]; [| |simpl; lia|].
    3: { intros st. rewrite (main_answered _ _ _ _ Hkey Ha).
         rewrite (validate_and_export_raised _ _ _ Hin). reflexivity. }
    + rewrite (py_in_raises _ _ _ Hin). by right.
    + intros r [<-|[]]. reflexivity.
Qed.

(** After the validation: the JSON export fails half way, or it is
    complete and the CSV export runs on a mapping, or raises on anything
    else. *)
Lemma exports_cases data :
  py_in (py "voices") data = Ret true ->
  (json_encodable data = false
   /\ forall st,
        validate_and_export data st
        = (Raise UnicodeEncodeError,
           mkState (stdout st)
             (<[py "voices.json" := concat (written_chunks (iterencode false 0 data))]>
                (files st))
             (sent st)))
  \/ (json_encodable data = true
      /\ (forall kvs, data <> JObj kvs)
      /\ forall st,
           validate_and_export data st
           = (Raise AttributeError,
              mkState (stdout st ++ [py "Wrote raw JSON to voices.json"])
                (<[py "voices.json" := json_dumps false data]> (files st)) (sent st)))
  \/ (json_encodable data = true
      /\ exists kvs,
           data = JObj kvs
           /\ forall st,
                validate_and_export data st
                = (fst (fst (csv_outcome kvs)),
                   mkState (stdout st ++ [py "Wrote raw JSON to voices.json"]
                              ++ snd (fst (csv_outcome kvs)))
                     (<[py "voices.csv" := snd (csv_outcome kvs)]>
                        (<[py "voices.json" := json_dumps false data]> (files st)))
                     (sent st))).
Proof.
  intros Hin. destruct (json_encodable data) eqn:Henc.
  - assert (Hd : (exists kvs, data = JObj kvs) \/ (forall kvs, data <> JObj kvs)).
    { destruct data; try (right; intros; discriminate). left. eauto. }
    destruct Hd as [[kvs ->]|Hd].
    + right. right. split; [reflexivity|]. exists kvs. split; [reflexivity|].
      intros st. rewrite (validate_and_export_passed _ _ Hin), export_to_json_any.
      rewrite chunks_encodable, Henc, export_to_csv_outcome.
      cbn [stdout files sent]. rewrite <- app_assoc. reflexivity.
    + right. left. split; [reflexivity|]. split; [exact Hd|].
      intros st. rewrite (validate_and_export_passed _ _ Hin), export_to_json_any.
      rewrite chunks_encodable, Henc. by apply export_to_csv_not_a_mapping.
  - left. split; [reflexivity|]. intros st.
    rewrite (validate_and_export_passed _ _ Hin), export_to_json_any.
    rewrite chunks_encodable, Henc. reflexivity.
Qed.

(** ** The credential that reaches the network *)

Lemma lstrip_suffix s : exists p, s = p ++ lstrip s.
Proof.
  induction s as [|c s [p IH]]; [by exists []|].
  simpl. destruct (is_space c); [|by exists []].
  exists (c :: p). simpl. by rewrite <- IH.
Qed.

(** What [strip] leaves, if anything, has no whitespace at either end. *)
Lemma trimmed_strip s : strip s <> [] -> trimmed (strip s).
Proof.
  intros Hne. split; [exact Hne|]. unfold strip, rstrip in *.
  set (t := lstrip s) in *. set (u := lstrip (rev t)) in *.
  split.
  - intros c r E.
    destruct (lstrip_suffix (rev t)) as [p Hp]. fold u in Hp.
    apply (f_equal (@rev N)) in E. rewrite rev_involutive in E. simpl in E.
    rewrite E in Hp. apply (f_equal (@rev N)) in Hp.
    rewrite rev_involutive, !rev_app_distr in Hp. simpl in Hp.
    apply (lstrip_head s c _ Hp).
  - intros c r E.
    apply (f_equal (@rev N)) in E. rewrite rev_involutive, rev_app_distr in E. simpl in E.
    apply (lstrip_head (rev t) c _ E).
Qed.

(** X6. A run that stays within the embedding hands the network at
    most one request, and never another one than a GET of the voices
    endpoint whose only header is [xi-api-key], with a value that is
    not empty and has no whitespace at either end. *)
Theorem main_sends_at_most_one_request (argv : list pystr) net st :
  fst (main argv net st) <> Raise NotModelled ->
  exists reqs,
    sent (snd (main argv net st)) = sent st ++ reqs
    /\ (length reqs <= 1)%nat
    /\ forall r, In r reqs ->
         exists key,
           r = mkRequest API_URL None [(py "xi-api-key", key)]
           /\ get_method r = py "GET" /\ trimmed key.
Proof.
  intros _. destruct (usage_error_or_accepted argv) as [Hu|Hkey].
  - exists []. rewrite (main_without_key _ _ _ Hu). cbn [snd sent].
    rewrite app_nil_r. split; [reflexivity|]. split; [simpl; lia | intros r []].
  - exists [voices_request (strip (nth 1 argv []))].
    rewrite main_with_key, fetch_and_export_sent by assumption.
    split; [reflexivity|]. split; [simpl; lia|].
    intros r [<-|[]]. exists (strip (nth 1 argv [])).
    split; [reflexivity|]. split; [reflexivity|].
    apply trimmed_strip. apply Hkey.
Qed.

Lemma main_sends_at_most_one_request_witness :
  exists reqs,
    sent (snd (main [py "export_elevenlabs_voices.py"; py " sk_123 "]
                 (fun _ => ConnectionFailure (py "unreachable")) (initial ∅)))
    = sent (initial ∅) ++ reqs
    /\ (length reqs <= 1)%nat
    /\ forall r, In r reqs ->
         exists key,
           r = mkRequest API_URL None [(py "xi-api-key", key)]
           /\ get_method r = py "GET" /\ trimmed key.
Proof.
  apply main_sends_at_most_one_request. vm_compute. discriminate.
Defined.

(** X10. With at least one argument, a run depends on the command line
    only through its second entry stripped of surrounding whitespace:
    the program name, any further argument and the whitespace around
    the credential change nothing. *)
Theorem main_depends_on_stripped_credential (argv argv' : list pystr) net st :
  (2 <= length argv)%nat -> (2 <= length argv')%nat ->
  strip (nth 1 argv []) = strip (nth 1 argv' []) ->
  main argv net st = main argv' net st.
Proof.
  intros Hl Hl' Hs.
  destruct (usage_error_or_accepted argv) as [Hu|Hkey].
  - destruct Hu as [Hu|[_ Hsp]]; [lia|].
    assert (Hu : usage_error argv) by (right; auto).
    assert (Hu' : usage_error argv').
    { right. split; [exact Hl'|]. apply strip_nil_iff. rewrite <- Hs.
      by apply strip_nil_iff. }
    rewrite (main_without_key _ _ _ Hu), (main_without_key _ _ _ Hu').
    replace (length argv <? 2)%nat with false by (symmetry; apply Nat.ltb_ge; lia).
    replace (length argv' <? 2)%nat with false by (symmetry; apply Nat.ltb_ge; lia).
    reflexivity.
  - assert (Hkey' : accepted_key argv').
    { split; [exact Hl'|]. rewrite <- Hs. apply Hkey. }
    rewrite !main_with_key by assumption. rewrite Hs. reflexivity.
Qed.

Lemma main_depends_on_stripped_credential_witness :
  main [py "export_elevenlabs_voices.py"; py "  sk_123 "; py "--verbose"]
    (fun _ => ConnectionFailure (py "unreachable")) (initial ∅)
  = main [py "x"; py "sk_123"] (fun _ => ConnectionFailure (py "unreachable")) (initial ∅).
Proof.
  apply main_depends_on_stripped_credential; [simpl; lia | simpl; lia | reflexivity].
Defined.

(** ** The failure paths before the exports *)

(** X1. When the network gives no response, the program prints the
    reason after [Connection error:], exits with status 1 and touches no
    file. *)
Theorem main_connection_error (argv : list pystr) net st reason :
  accepted_key argv ->
  net (voices_request (strip (nth 1 argv []))) = ConnectionFailure reason ->
  main argv net st
  = (Raise (SystemExit 1),
     mkState (stdout st
                ++ [py "Fetching voices from ElevenLabs...";
                    py "Connection error: " ++ reason])
       (files st) (sent st ++ [voices_request (strip (nth 1 argv []))]))
  /\ exit_status (fst (main argv net st)) = Some 1.
Proof.
  intros Hkey Hnet.
  match goal with |- ?l = ?r /\ _ => assert (E0 : l = r) end.
  { apply (main_fetch_raised _ _ _ _ _ Hkey).
    rewrite (fetch_voices_connection_failure _ _ _ _ Hnet).
    cbn [stdout files sent]. rewrite <- app_assoc. reflexivity. }
  rewrite E0. auto.
Qed.

Lemma main_connection_error_witness :
  main [py "export_elevenlabs_voices.py"; py "key"]
    (fun _ => ConnectionFailure (py "[Errno 111] Connection refused")) (initial ∅)
  = (Raise (SystemExit 1),
     mkState [py "Fetching voices from ElevenLabs...";
              py "Connection error: [Errno 111] Connection refused"]
       ∅ [voices_request (py "key")]).
Proof.
  refine (proj1 (main_connection_error [py "export_elevenlabs_voices.py"; py "key"]
                   (fun _ => ConnectionFailure (py "[Errno 111] Connection refused"))
                   (initial ∅) (py "[Errno 111] Connection refused") _ _)).
  - split; [simpl; lia | discriminate].
  - reflexivity.
Defined.

(** X2. When a 2xx response has a body that cannot be read and decoded
    as UTF-8, or that is not JSON, nothing catches the exception: the
    run ends with exit status 1 having printed only the first line,
    sent its one request and touched no file. *)
Theorem main_undecodable_body (argv : list pystr) net st status reason body :
  accepted_key argv ->
  net (voices_request (strip (nth 1 argv []))) = HttpResponse status reason body ->
  200 <= status < 300 ->
  match body with
  | None => True
  | Some text => json_loads text = Raise JSONDecodeError
  end ->
  main argv net st
  = (Raise (match body with None => BodyReadError | Some _ => JSONDecodeError end),
     fetched st (strip (nth 1 argv [])))
  /\ exit_status (fst (main argv net st)) = Some 1
  /\ files (snd (main argv net st)) = files st.
Proof.
  intros Hkey Hnet Hst Hbody.
  match goal with |- ?l = ?r /\ _ => assert (E0 : l = r) end.
  { apply (main_fetch_raised _ _ _ _ _ Hkey). destruct body as [text|].
    - rewrite (fetch_voices_undecodable _ _ _ _ _ _ _ Hnet (status_2xx _ Hst) Hbody).
      reflexivity.
    - rewrite (fetch_voices_unreadable _ _ _ _ _ Hnet (status_2xx _ Hst)). reflexivity. }
  rewrite E0. destruct body; auto.
Qed.

Lemma main_undecodable_body_witness :
  main [py "export_elevenlabs_voices.py"; py "key"]
    (fun _ => HttpResponse 200 (py "OK") (Some (py "<html>maintenance</html>")))
    (initial ∅)
  = (Raise JSONDecodeError, fetched (initial ∅) (py "key")).
Proof.
  refine (proj1 (main_undecodable_body [py "export_elevenlabs_voices.py"; py "key"]
                   (fun _ => HttpResponse 200 (py "OK")
                               (Some (py "<html>maintenance</html>")))
                   (initial ∅) 200 (py "OK") (Some (py "<html>maintenance</html>"))
                   _ _ _ _)).
  - split; [simpl; lia | discriminate].
  - reflexivity.
  - lia.
  - reflexivity.
Defined.

(** X17. When the body decodes to a number, a boolean or null, the test
    for the [voices] key itself raises [TypeError]: no warning is
    printed, no file is touched, and the exit status is 1. *)
Theorem main_scalar_response (argv : list pystr) net st data :
  accepted_key argv ->
  answers net (strip (nth 1 argv [])) data ->
  match data with JNull | JBool _ | JInt _ => True | _ => False end ->
  main argv net st = (Raise TypeError, fetched st (strip (nth 1 argv [])))
  /\ exit_status (fst (main argv net st)) = Some 1
  /\ files (snd (main argv net st)) = files st.
Proof.
  intros Hkey Ha Hd.
  match goal with |- ?l = ?r /\ _ => assert (E0 : l = r) end.
  { rewrite (main_answered _ _ _ _ Hkey Ha). apply validate_and_export_raised.
    destruct data; try contradiction; reflexivity. }
  rewrite E0. auto.
Qed.

Lemma main_scalar_response_witness :
  main [py "export_elevenlabs_voices.py"; py "key"]
    (fun _ => HttpResponse 200 (py "OK") (Some (py "null"))) (initial ∅)
  = (Raise TypeError, fetched (initial ∅) (py "key")).
Proof.
  refine (proj1 (main_scalar_response [py "export_elevenlabs_voices.py"; py "key"]
                   (fun _ => HttpResponse 200 (py "OK") (Some (py "null")))
                   (initial ∅) JNull _ _ _)).
  - split; [simpl; lia | discriminate].
  - exists 200, (py "OK"), (py "null"). split; [reflexivity|]. split; [lia | reflexivity].
  - exact I.
Defined.

(** ** The CSV export on its own *)


(** X7. Without a [voices] key the export takes the empty list: it
    writes the header alone, reports 0 voices and returns. *)
Theorem export_to_csv_without_voices kvs st :
  dict_lookup (py "voices") kvs = None ->
  export_to_csv (JObj kvs) st
  = (Ret tt,
     mkState (stdout st ++ [py "Wrote CSV with 0 voices to voices.csv"])
       (<[py "voices.csv" := header_line]> (files st)) (sent st)).
Proof.
  intros H. rewrite export_to_csv_any. unfold voices_of. rewrite H.
  cbn [default from_option id py_iter csv_rows fst snd List.map concat length].
  cbv zeta. rewrite app_nil_r. reflexivity.
Qed.

Lemma export_to_csv_without_voices_witness :
  export_to_csv (JObj [(py "detail", JStr (py "nothing here"))]) (initial ∅)
  = (Ret tt,
     mkState [py "Wrote CSV with 0 voices to voices.csv"]
       (<[py "voices.csv" := header_line]> ∅) []).
Proof.
  apply (export_to_csv_without_voices [(py "detail", JStr (py "nothing here"))] (initial ∅)).
  reflexivity.
Defined.

(** X8. When [voices] is not a list, the export has already written
    the header when the loop starts: a number, a boolean or null cannot
    be iterated ([TypeError]); a mapping or a string is iterated over
    its keys or characters, none of which is a mapping
    ([AttributeError]), unless it is empty, in which case the export
    succeeds and reports 0 voices. *)
Theorem export_to_csv_voices_not_a_list kvs voices st :
  dict_lookup (py "voices") kvs = Some voices ->
  (forall items, voices <> JArr items) ->
  export_to_csv (JObj kvs) st
  = match voices with
    | JObj [] | JStr [] =>
        (Ret tt,
         mkState (stdout st ++ [py "Wrote CSV with 0 voices to voices.csv"])
           (<[py "voices.csv" := header_line]> (files st)) (sent st))
    | JObj _ | JStr _ =>
        (Raise AttributeError,
         mkState (stdout st) (<[py "voices.csv" := header_line]> (files st)) (sent st))
    | _ =>
        (Raise TypeError,
         mkState (stdout st) (<[py "voices.csv" := header_line]> (files st)) (sent st))
    end.
Proof.
  intros H Hl. rewrite export_to_csv_any. unfold voices_of. rewrite H.
  cbn [default from_option id].
  destruct voices as [| b | z | s | l | l]; try reflexivity.
  - destruct s as [|c s]; [cbn; rewrite app_nil_r; reflexivity|]. reflexivity.
  - by destruct (Hl l).
  - destruct l as [|[k v] l]; [cbn; rewrite app_nil_r; reflexivity|]. reflexivity.
Qed.

Lemma export_to_csv_voices_not_a_list_witness :
  export_to_csv
    (JObj [(py "voices", JObj [(py "v1", JObj [(py "name", JStr (py "Ada"))])])])
    (initial ∅)
  = (Raise AttributeError, mkState [] (<[py "voices.csv" := header_line]> ∅) []).
Proof.
  apply (export_to_csv_voices_not_a_list
           [(py "voices", JObj [(py "v1", JObj [(py "name", JStr (py "Ada"))])])]
           (JObj [(py "v1", JObj [(py "name", JStr (py "Ada"))])]) (initial ∅)).
  - reflexivity.
  - discriminate.
Defined.

(** X9. The export stops at the first voice that raises
    [AttributeError] (an item that is not a mapping, or [labels] bound
    to a true value that is not one): the records of the voices before
    it are in the file, in order, nothing is written for it or for the
    voices after it, and no confirmation is printed. *)
Theorem export_to_csv_stops_at_first_failure kvs good bad rest st :
  dict_lookup (py "voices") kvs = Some (JArr (good ++ bad :: rest)) ->
  Forall (fun v => voice_record v = true) good ->
  voice_fields bad = Raise AttributeError ->
  exists rows,
    Forall2 (fun v row => voice_fields v = Ret row) good rows
    /\ export_to_csv (JObj kvs) st
       = (Raise AttributeError,
          mkState (stdout st)
            (<[py "voices.csv" := header_line ++ concat (List.map csv_line rows)]> (files st))
            (sent st)).
Proof.
  intros Hv Hgood Hbad. destruct (voice_records_rows good Hgood) as [rows Hrows].
  exists rows. split; [eapply Forall2_impl; [exact Hrows|]; by intros ? ? [? _]|].
  rewrite export_to_csv_any. unfold voices_of. rewrite Hv.
  cbn [default from_option id py_iter]. cbv zeta.
  rewrite (csv_rows_good _ _ Hrows). cbn [csv_rows]. rewrite Hbad. cbn [fst snd].
  rewrite app_nil_r. reflexivity.
Qed.

Lemma export_to_csv_stops_at_first_failure_witness :
  exists rows,
    export_to_csv
      (JObj [(py "voices",
              JArr [JObj [(py "voice_id", JStr (py "v1"))];
                    JObj [(py "voice_id", JStr (py "v2")); (py "labels", JStr (py "old"))];
                    JObj [(py "voice_id", JStr (py "v3"))]])])
      (initial ∅)
    = (Raise AttributeError,
       mkState [] (<[py "voices.csv" := header_line ++ concat (List.map csv_line rows)]> ∅)
         []).
Proof.
  destruct (export_to_csv_stops_at_first_failure
              [(py "voices",
                JArr [JObj [(py "voice_id", JStr (py "v1"))];
                      JObj [(py "voice_id", JStr (py "v2")); (py "labels", JStr (py "old"))];
                      JObj [(py "voice_id", JStr (py "v3"))]])]
              [JObj [(py "voice_id", JStr (py "v1"))]]
              (JObj [(py "voice_id", JStr (py "v2")); (py "labels", JStr (py "old"))])
              [JObj [(py "voice_id", JStr (py "v3"))]]
              (initial ∅)) as (rows & _ & H).
  - reflexivity.
  - repeat constructor.
  - reflexivity.
  - exists rows. exact H.
Defined.

(** X12. Whenever the export returns, the value under [voices] could be
    iterated, every item gave a row, the file holds the header and then
    exactly one record per item, in order, and the number printed is
    the number of those records. *)
Theorem export_to_csv_returned kvs st :
  fst (export_to_csv (JObj kvs) st) = Ret tt ->
  exists items rows,
    py_iter (voices_of kvs) = Ret items
    /\ Forall2 (fun v row => voice_fields v = Ret row) items rows
    /\ export_to_csv (JObj kvs) st
       = (Ret tt,
          mkState (stdout st ++ [csv_message (length rows)])
            (<[py "voices.csv" := header_line ++ concat (List.map csv_line rows)]> (files st))
            (sent st)).
Proof.
  rewrite export_to_csv_any.
  destruct (py_iter (voices_of kvs)) as [items|e] eqn:Ei; [|discriminate]. cbv zeta.
  destruct (csv_rows_fields items) as (done & Hd & Hs).
  destruct (snd (csv_rows items)) as [e|]; [discriminate|]. subst done. intros _.
  exists items, (fst (csv_rows items)). split; [reflexivity|].
  split; [eapply Forall2_impl; [exact Hd|]; by intros ? ? [? _]|].
  rewrite <- (Forall2_length _ _ _ Hd). reflexivity.
Qed.

Lemma export_to_csv_returned_witness :
  exists items rows,
    py_iter (voices_of [(py "voices", JArr [JObj [(py "name", JInt 7)]])]) = Ret items
    /\ Forall2 (fun v row => voice_fields v = Ret row) items rows
    /\ export_to_csv (JObj [(py "voices", JArr [JObj [(py "name", JInt 7)]])]) (initial ∅)
       = (Ret tt,
          mkState ([] ++ [csv_message (length rows)])
            (<[py "voices.csv" := header_line ++ concat (List.map csv_line rows)]> ∅) []).
Proof.
  apply (export_to_csv_returned [(py "voices", JArr [JObj [(py "name", JInt 7)]])]
           (initial ∅)).
  reflexivity.
Defined.

(** ** The JSON export on its own *)

(** X14. The JSON export returns exactly when no string of the value,
    key or not, holds a surrogate code point.  Otherwise it raises
    [UnicodeEncodeError] without printing its confirmation, and
    [voices.json] is left holding a proper front part of the text: the
    chunks before the first one that cannot be encoded. *)
Theorem export_to_json_returns_iff data st :
  (fst (export_to_json data st) = Ret tt <-> json_encodable data = true)
  /\ (json_encodable data = false ->
      exists written bad rest,
        export_to_json data st
        = (Raise UnicodeEncodeError,
           mkState (stdout st) (<[py "voices.json" := concat written]> (files st)) (sent st))
        /\ iterencode false 0 data = written ++ bad :: rest
        /\ encodable bad = false).
Proof.
  rewrite export_to_json_any, chunks_encodable.
  destruct (json_encodable data) eqn:E.
  - split; [split; reflexivity | discriminate].
  - split; [split; discriminate|]. intros _.
    rewrite <- chunks_encodable in E.
    destruct (written_chunks_prefix _ E) as (bad & rest & Hc & Hb).
    exists (written_chunks (iterencode false 0 data)), bad, rest. auto.
Qed.

Lemma export_to_json_returns_iff_witness :
  json_encodable (JArr [JStr (py "Ada"); JStr [56832%N]]) = false
  /\ exists written bad rest,
       export_to_json (JArr [JStr (py "Ada"); JStr [56832%N]]) (initial ∅)
       = (Raise UnicodeEncodeError,
          mkState (stdout (initial ∅))
            (<[py "voices.json" := concat written]> (files (initial ∅)))
            (sent (initial ∅)))
       /\ iterencode false 0 (JArr [JStr (py "Ada"); JStr [56832%N]])
          = written ++ bad :: rest
       /\ encodable bad = false.
Proof.
  split; [reflexivity|].
  apply (proj2 (export_to_json_returns_iff _ _)). reflexivity.
Defined.

(** ** Whole runs *)



(** X4. A run ends with exit status 0 only after both exports: the body
    decoded to a mapping with a [voices] key, [voices.json] holds its
    full dump, which decodes back to it, and [voices.csv] holds the
    header and one record for each item under [voices]. *)
Theorem main_exit_zero (argv : list pystr) net st :
  exit_status (fst (main argv net st)) = Some 0 ->
  exists kvs items rows,
    accepted_key argv
    /\ answers net (strip (nth 1 argv [])) (JObj kvs)
    /\ py_iter (voices_of kvs) = Ret items
    /\ Forall2 (fun v row => voice_fields v = Ret row) items rows
    /\ json_loads (json_dumps false (JObj kvs)) = Ret (JObj kvs)
    /\ files (snd (main argv net st))
       = <[py "voices.csv" := header_line ++ concat (List.map csv_line rows)]>
           (<[py "voices.json" := json_dumps false (JObj kvs)]> (files st)).
Proof.
  intros Hexit.
  destruct (main_gate argv net) as [(e & out & reqs & He & _ & _ & Hm)
                                    | (Hkey & data & Ha & Hin)].
  { rewrite Hm in Hexit. cbn [fst] in Hexit.
    destruct He as [->|He]; [discriminate | congruence]. }
  rewrite (main_answered _ _ _ _ Hkey Ha) in *.
  destruct (exports_cases data Hin) as [[_ H] | [(_ & _ & H) | (_ & kvs & -> & H)]];
    rewrite H in *; try discriminate.
  cbn [fst snd files fetched] in *.
  unfold csv_outcome in *.
  destruct (py_iter (voices_of kvs)) as [items|e] eqn:Ei;
    [|rewrite (py_iter_raises _ _ Ei) in Hexit; discriminate].
  cbv zeta in *.
  destruct (csv_rows_fields items) as (done & Hd & Hs).
  destruct (snd (csv_rows items)) as [e|] eqn:Es.
  { cbn [fst] in Hexit.
    destruct (csv_rows_raises _ _ Es) as [->|[->| ->]]; discriminate. }
  subst done. exists kvs, items, (fst (csv_rows items)).
  split; [exact Hkey|]. split; [exact Ha|]. split; [exact Ei|].
  split; [eapply Forall2_impl; [exact Hd|]; by intros ? ? [? _]|].
  split; [|reflexivity].
  destruct Ha as (status & reason & text & _ & _ & Hj).
  apply json_loads_dumps. by apply (json_loads_wf text).
Qed.

Lemma main_exit_zero_witness :
  exists kvs items rows,
    answers (fun _ => HttpResponse 200 (py "OK")
               (Some (json_dumps true (JObj [(py "voices", JArr [])]))))
      (py "key") (JObj kvs)
    /\ py_iter (voices_of kvs) = Ret items
    /\ Forall2 (fun v row => voice_fields v = Ret row) items rows.
Proof.
  destruct (main_exit_zero [py "export_elevenlabs_voices.py"; py "key"]
              (fun _ => HttpResponse 200 (py "OK")
                 (Some (json_dumps true (JObj [(py "voices", JArr [])]))))
              (initial ∅)) as (kvs & items & rows & _ & Ha & Hi & Hr & _).
  - vm_compute. reflexivity.
  - exists kvs, items, rows. auto.
Defined.

(** X11. In a run that stays within the embedding (no float in the
    response, no list or mapping in an exported field), a file is
    touched only after every gate: the credential was accepted, the API
    answered 2xx with a body that decoded, and the test for [voices]
    held.  Every other such run ends with exit status 1 and leaves all
    files as they were. *)
Theorem main_writes_only_after_validation (argv : list pystr) net st :
  fst (main argv net st) <> Raise NotModelled ->
  (files (snd (main argv net st)) = files st
   /\ exit_status (fst (main argv net st)) = Some 1)
  \/ (accepted_key argv
      /\ exists data,
           answers net (strip (nth 1 argv [])) data
           /\ py_in (py "voices") data = Ret true).
Proof.
  intros Hm'.
  destruct (main_gate argv net) as [(e & out & reqs & He & _ & _ & Hm) | H];
    [|by right].
  left. rewrite Hm in *. cbn [fst snd files] in *.
  destruct He as [->|He]; [contradiction | auto].
Qed.

Lemma main_writes_only_after_validation_witness :
  (files (snd (main [py "export_elevenlabs_voices.py"; py "key"]
                 (fun _ => HttpResponse 200 (py "OK") (Some (py "{}")))
                 (initial ∅)))
   = files (initial ∅)
   /\ exit_status (fst (main [py "export_elevenlabs_voices.py"; py "key"]
                          (fun _ => HttpResponse 200 (py "OK") (Some (py "{}")))
                          (initial ∅)))
      = Some 1)
  \/ (accepted_key [py "export_elevenlabs_voices.py"; py "key"]
      /\ exists data,
           answers (fun _ => HttpResponse 200 (py "OK") (Some (py "{}")))
             (strip (nth 1 [py "export_elevenlabs_voices.py"; py "key"] [])) data
           /\ py_in (py "voices") data = Ret true).
Proof.
  apply main_writes_only_after_validation. vm_compute. discriminate.
Defined.

(** X15. When the fetched structure passes the validation but one of
    its strings holds a surrogate, the JSON export raises
    [UnicodeEncodeError] half way: [voices.json] is left truncated,
    [voices.csv] is not touched, neither confirmation is printed and the
    exit status is 1. *)
Theorem main_json_export_failure (argv : list pystr) net st data :
  accepted_key argv ->
  answers net (strip (nth 1 argv [])) data ->
  py_in (py "voices") data = Ret true ->
  json_encodable data = false ->
  exists written bad rest,
    main argv net st
    = (Raise UnicodeEncodeError,
       mkState (stdout st ++ [py "Fetching voices from ElevenLabs..."])
         (<[py "voices.json" := concat written]> (files st))
         (sent st ++ [voices_request (strip (nth 1 argv []))]))
    /\ iterencode false 0 data = written ++ bad :: rest
    /\ encodable bad = false
    /\ exit_status (fst (main argv net st)) = Some 1
    /\ files (snd (main argv net st)) !! py "voices.csv" = files st !! py "voices.csv".
Proof.
  intros Hkey Ha Hin Henc.
  pose proof Henc as Hc. rewrite <- chunks_encodable in Hc.
  destruct (written_chunks_prefix _ Hc) as (bad & rest & Hw & Hb).
  exists (written_chunks (iterencode false 0 data)), bad, rest.
  match goal with |- ?l = ?r /\ _ => assert (E0 : l = r) end.
  { rewrite (main_answered _ _ _ _ Hkey Ha).
    destruct (exports_cases data Hin) as [[_ H] | [(H & _) | (H & _)]]; [|congruence..].
    rewrite H. reflexivity. }
  rewrite E0. cbn [fst snd files]. repeat split; auto.
  by rewrite lookup_insert_ne.
Qed.

Lemma main_json_export_failure_witness :
  fst (main [py "export_elevenlabs_voices.py"; py "key"]
         (fun _ => HttpResponse 200 (py "OK")
            (Some (json_dumps true
                     (JObj [(py "voices", JArr [JObj [(py "name", JStr [56832%N])]])]))))
         (initial ∅))
  = Raise UnicodeEncodeError.
Proof.
  destruct (main_json_export_failure [py "export_elevenlabs_voices.py"; py "key"]
              (fun _ => HttpResponse 200 (py "OK")
                 (Some (json_dumps true
                          (JObj [(py "voices", JArr [JObj [(py "name", JStr [56832%N])]])]))))
              (initial ∅)
              (JObj [(py "voices", JArr [JObj [(py "name", JStr [56832%N])]])]))
    as (written & bad & rest & H & _).
  - split; [simpl; lia | discriminate].
  - exists 200, (py "OK"),
      (json_dumps true (JObj [(py "voices", JArr [JObj [(py "name", JStr [56832%N])]])])).
    split; [reflexivity|]. split; [lia | reflexivity].
  - reflexivity.
  - reflexivity.
  - rewrite H. reflexivity.
Defined.

(** X16. The validation is a membership test, not a test for a mapping:
    a list holding the string [voices], or a string containing it,
    passes.  [voices.json] is then written in full, and the CSV export
    raises [AttributeError] before it opens [voices.csv]; the exit
    status is 1. *)
Theorem main_non_mapping_passes_validation (argv : list pystr) net st data :
  accepted_key argv ->
  answers net (strip (nth 1 argv [])) data ->
  py_in (py "voices") data = Ret true ->
  (forall kvs, data <> JObj kvs) ->
  json_encodable data = true ->
  main argv net st
  = (Raise AttributeError,
     mkState (stdout st
                ++ [py "Fetching voices from ElevenLabs...";
                    py "Wrote raw JSON to voices.json"])
       (<[py "voices.json" := json_dumps false data]> (files st))
       (sent st ++ [voices_request (strip (nth 1 argv []))]))
  /\ exit_status (fst (main argv net st)) = Some 1
  /\ files (snd (main argv net st)) !! py "voices.csv" = files st !! py "voices.csv".
Proof.
  intros Hkey Ha Hin Hd Henc.
  match goal with |- ?l = ?r /\ _ => assert (E0 : l = r) end.
  { rewrite (main_answered _ _ _ _ Hkey Ha).
    destruct (exports_cases data Hin) as [[H _] | [(_ & _ & H) | (_ & kvs & -> & _)]];
      [congruence | | by destruct (Hd kvs)].
    rewrite H. cbn [fetched stdout files sent]. rewrite <- app_assoc. reflexivity. }
  rewrite E0. cbn [fst snd files]. repeat split; auto.
  by rewrite lookup_insert_ne.
Qed.

Lemma main_non_mapping_passes_validation_witness :
  fst (main [py "export_elevenlabs_voices.py"; py "key"]
         (fun _ => HttpResponse 200 (py "OK")
            (Some (json_dumps true (JArr [JStr (py "voices"); JStr (py "models")]))))
         (initial ∅))
  = Raise AttributeError.
Proof.
  destruct (main_non_mapping_passes_validation
              [py "export_elevenlabs_voices.py"; py "key"]
              (fun _ => HttpResponse 200 (py "OK")
                 (Some (json_dumps true (JArr [JStr (py "voices"); JStr (py "models")]))))
              (initial ∅) (JArr [JStr (py "voices"); JStr (py "models")])) as (H & _).
  - split; [simpl; lia | discriminate].
  - exists 200, (py "OK"),
      (json_dumps true (JArr [JStr (py "voices"); JStr (py "models")])).
    split; [reflexivity|]. split; [lia | reflexivity].
  - reflexivity.
  - discriminate.
  - reflexivity.
  - rewrite H. reflexivity.
Defined.

(** ** The files a run touches *)

Lemma apply_writes_lookup_other writes disk (path : pystr) :
  Forall (fun kv => fst kv <> path) writes ->
  apply_writes writes disk !! path = disk !! path.
Proof.
  induction 1 as [|[k v] rest Hk _ IH]; [reflexivity|].
  cbn [apply_writes fold_right fst snd] in *.
  rewrite lookup_insert_ne by exact Hk. exact IH.
Qed.

Lemma apply_writes_lookup_same (writes : list (pystr * pystr)) (m1 m2 : gmap pystr pystr) (path : pystr) :
  In path (List.map fst writes) \/ m1 !! path = m2 !! path ->
  apply_writes writes m1 !! path = apply_writes writes m2 !! path.
Proof.
  induction writes as [|[k v] rest IH]; intros H.
  - destruct H as [[]|H]. exact H.
  - cbn [apply_writes fold_right fst snd List.map In] in *.
    destruct (decide (k = path)) as [->|Hne]; [by rewrite !lookup_insert_eq|].
    rewrite !lookup_insert_ne by exact Hne. apply IH.
    destruct H as [[H|H]|H]; [contradiction | by left | by right].
Qed.

Lemma apply_writes_key_or_kept (writes : list (pystr * pystr)) (disk : gmap pystr pystr) (path : pystr) :
  In path (List.map fst writes) \/ apply_writes writes disk !! path = disk !! path.
Proof.
  induction writes as [|[k v] rest IH]; [by right|].
  cbn [apply_writes fold_right fst snd List.map In] in *.
  destruct (decide (k = path)) as [->|Hne]; [left; by left|].
  destruct IH as [IH|IH]; [left; by right|].
  right. by rewrite lookup_insert_ne.
Qed.

(** The effect of a run on the files is a fixed list of whole-file
    writes to [voices.json] and [voices.csv], the same from every
    state. *)
Lemma main_writes (argv : list pystr) net :
  exists writes,
    Forall (fun kv => fst kv = py "voices.json" \/ fst kv = py "voices.csv") writes
    /\ forall st, files (snd (main argv net st)) = apply_writes writes (files st).
Proof.
  destruct (main_gate argv net) as [(e & out & reqs & _ & _ & _ & Hm)
                                    | (Hkey & data & Ha & Hin)].
  { exists []. split; [constructor|]. intros st. by rewrite Hm. }
  destruct (exports_cases data Hin) as [[_ H] | [(_ & _ & H) | (_ & kvs & -> & H)]].
  - exists [(py "voices.json", concat (written_chunks (iterencode false 0 data)))].
    split; [constructor; [by left | constructor]|].
    intros st. by rewrite (main_answered _ _ _ _ Hkey Ha), H.
  - exists [(py "voices.json", json_dumps false data)].
    split; [constructor; [by left | constructor]|].
    intros st. by rewrite (main_answered _ _ _ _ Hkey Ha), H.
  - exists [(py "voices.csv", snd (csv_outcome kvs));
            (py "voices.json", json_dumps false (JObj kvs))].
    split; [constructor; [by right|]; constructor; [by left | constructor]|].
    intros st. by rewrite (main_answered _ _ _ _ Hkey Ha), H.
Qed.

(** X5. A run that stays within the embedding creates, changes or
    removes no file other than [voices.json] and [voices.csv], whatever
    the arguments and the network answer. *)
Theorem main_touches_only_its_outputs (argv : list pystr) net st (path : pystr) :
  fst (main argv net st) <> Raise NotModelled ->
  path <> py "voices.json" ->
  path <> py "voices.csv" ->
  files (snd (main argv net st)) !! path = files st !! path.
Proof.
  intros _ Hj Hc. destruct (main_writes argv net) as (writes & Hk & Hw).
  rewrite Hw. apply apply_writes_lookup_other.
  eapply Forall_impl; [exact Hk|]. intros kv [E|E] E2; congruence.
Qed.

Lemma main_touches_only_its_outputs_witness :
  files (snd (main [py "export_elevenlabs_voices.py"; py "key"]
                (fun _ => HttpResponse 200 (py "OK")
                   (Some (json_dumps true (JObj [(py "voices", JArr [])]))))
                (initial {[ py "notes.txt" := py "keep" ]})))
    !! py "notes.txt"
  = Some (py "keep").
Proof.
  rewrite (main_touches_only_its_outputs _ _ _ (py "notes.txt"));
    [reflexivity | vm_compute; discriminate | discriminate | discriminate].
Defined.

(** X13. The files are overwritten, never appended to: after a run that
    stays within the embedding, a second run with the same arguments
    and the same network answer leaves every file exactly as the first
    left it, however the first ended. *)
Theorem main_rerun_same_files (argv : list pystr) net st :
  fst (main argv net st) <> Raise NotModelled ->
  files (snd (main argv net (snd (main argv net st))))
  = files (snd (main argv net st)).
Proof.
  intros _. destruct (main_writes argv net) as (writes & _ & Hw).
  rewrite !Hw. apply map_eq. intros path.
  apply apply_writes_lookup_same, apply_writes_key_or_kept.
Qed.

Lemma main_rerun_same_files_witness :
  files (snd (main [py "export_elevenlabs_voices.py"; py "key"]
                (fun _ => HttpResponse 200 (py "OK")
                   (Some (json_dumps true
                            (JObj [(py "voices", JArr [JStr (py "Ada")])]))))
                (snd (main [py "export_elevenlabs_voices.py"; py "key"]
                        (fun _ => HttpResponse 200 (py "OK")
                           (Some (json_dumps true
                                    (JObj [(py "voices", JArr [JStr (py "Ada")])]))))
                        (initial ∅)))))
  = files (snd (main [py "export_elevenlabs_voices.py"; py "key"]
                  (fun _ => HttpResponse 200 (py "OK")
                     (Some (json_dumps true
                              (JObj [(py "voices", JArr [JStr (py "Ada")])]))))
                  (initial ∅))).
Proof.
  apply main_rerun_same_files. vm_compute. discriminate.
Defined.
